(** * Orange.widgets.data.owsql: the SQL Table widget

    A shallow embedding of [OWSql] (src/Orange/widgets/data/owsql.py):
    the resource-file parser [_parse_sql_resource_file], the connection
    callbacks [on_connection_success] and [clear], and [get_table], which
    resolves the selected source, optionally materializes a custom query,
    opens the relation and applies the discovery and download policy.

    Text is modelled by [string] (7-bit characters); a file is the text
    Python's text layer hands to [readline], that is, decoded and with line
    ends already translated to a single newline character. *)

From Stdlib Require Import ZArith String Ascii List Bool Lia.
From Stdlib Require QArith.
From stdpp Require Import base tactics option strings list.

Local Open Scope string_scope.
Local Open Scope list_scope.
Local Open Scope Z_scope.

(** ** Python strings *)

Module Py.

Definition nl : ascii := "010"%char.
Definition NL : string := String nl "".

(** [str.isspace] on 7-bit characters: tab, newline, vertical tab, form
    feed, carriage return, the four separators 28..31, and space. *)
Definition isspace (c : ascii) : bool :=
  match c with
  | "009" | "010" | "011" | "012" | "013"
  | "028" | "029" | "030" | "031" | " " => true
  | _ => false
  end%char.

Fixpoint lstrip (s : string) : string :=
  match s with
  | String c s' => if isspace c then lstrip s' else s
  | "" => ""
  end.

Definition rstrip (s : string) : string := String.rev (lstrip (String.rev s)).

(** [s.strip()] *)
Definition strip (s : string) : string := rstrip (lstrip s).

Definition upper_char (c : ascii) : ascii :=
  let n := nat_of_ascii c in
  if ((97 <=? n)%nat && (n <=? 122)%nat)%bool then ascii_of_nat (n - 32) else c.

(** [s.upper()] *)
Fixpoint upper (s : string) : string :=
  match s with
  | String c s' => String (upper_char c) (upper s')
  | "" => ""
  end.

(** [str(x)] for [x] a string or [None]. *)
Definition str (x : option string) : string :=
  match x with
  | Some s => s
  | None => "None"
  end.

(** [s.startswith(p)] *)
Definition startswith (s p : string) : bool := String.prefix p s.

(** [sub in s] *)
Definition contains (s sub : string) : bool :=
  match String.index 0 sub s with
  | Some _ => true
  | None => false
  end.

(** [s.find(sub)]: the position of the first occurrence, or -1. *)
Definition find (s sub : string) : Z :=
  match String.index 0 sub s with
  | Some i => Z.of_nat i
  | None => -1
  end.

(** The slice [s[:k]]; a negative [k] counts from the end, and both are
    clamped to the string. *)
Definition slice_to (s : string) (k : Z) : string :=
  let n := Z.of_nat (String.length s) in
  let stop := if k <? 0 then Z.max 0 (n + k) else Z.min k n in
  String.substring 0 (Z.to_nat stop) s.

(** [s[k:]] for [0 <= k]. *)
Fixpoint drop (k : nat) (s : string) : string :=
  match k, s with
  | O, _ => s
  | S k', String _ s' => drop k' s'
  | S _, "" => ""
  end.

(** [sep.join(parts)] *)
Definition join (sep : string) (parts : list string) : string :=
  String.concat sep parts.

(** The lines [readline] returns one after the other until it returns the
    empty string: every line keeps its newline, the last line has one only
    if the text ends with one. *)
Fixpoint readlines (text : string) : list string :=
  match text with
  | "" => []
  | String c rest =>
      if Ascii.eqb c nl then String c "" :: readlines rest
      else match readlines rest with
           | [] => [String c ""]
           | l :: ls => String c l :: ls
           end
  end.

End Py.

(** ** The four regular expressions of the parser

    Each definition is what [re.compile(p).search] (or [.match]) answers on
    a line, without flags: [^] holds at position 0 only, [.] is any
    character but the newline, [$] holds at the end and just before a
    newline that is the last character. *)

Module Re.

(** The longest prefix without a newline: what a greedy dot-star takes. *)
Fixpoint dot_star (s : string) : string :=
  match s with
  | String c s' => if Ascii.eqb c Py.nl then "" else String c (dot_star s')
  | "" => ""
  end.

(** [$] at the start of [s]. *)
Definition at_end (s : string) : bool :=
  match s with
  | "" => true
  | String c "" => Ascii.eqb c Py.nl
  | _ => false
  end.

(** [name_pattern]: the anchor, the literal text, a greedy group of any
    characters, the end anchor; the answer is [n.group(1)]. A shorter
    group cannot help: it would stop before a character that is no
    newline. *)
Definition name_pattern (line : string) : option string :=
  if Py.startswith line "-- name:" then
    let rest := Py.drop 8%nat line in
    let g := dot_star rest in
    if at_end (Py.drop (String.length g) rest) then Some g else None
  else None.

(** [ignore_line]: two dashes at the start, used with [match]. *)
Definition ignore_line (line : string) : bool := Py.startswith line "--".

(** [start_query], the pattern [^SELECT|select]: the alternation binds
    weaker than the anchor, so it is [^SELECT], or [select] anywhere. *)
Definition start_query (line : string) : bool :=
  Py.startswith line "SELECT" || Py.contains line "select".

(** [stop_query]: a semicolon, then the end anchor. *)
Definition stop_query (line : string) : bool :=
  match String.rev line with
  | String ";" _ => true
  | String c (String ";" _) => Ascii.eqb c Py.nl
  | _ => false
  end.

End Re.

(** ** Exceptions and results *)

Inductive exn : Type :=
| OSError
| BackendError (msg : string)
| TypeError
| IndexError
| AttributeError
| ZeroDivisionError.

Inductive result (A : Type) : Type :=
| Ok (a : A)
| Raised (e : exn).
Arguments Ok {A} a.
Arguments Raised {A} e.

(** ** Python dictionaries

    A [dict] with string keys and values, in insertion order: assigning to a
    key that is present replaces the value in place, a new key goes last. *)

Module Dict.

Definition t : Type := list (string * string).

Fixpoint get (k : string) (d : t) : option string :=
  match d with
  | [] => None
  | (k', v) :: d' => if String.eqb k' k then Some v else get k d'
  end.

(** [d[k] = v] *)
Fixpoint set (k v : string) (d : t) : t :=
  match d with
  | [] => [(k, v)]
  | (k', v') :: d' =>
      if String.eqb k' k then (k, v) :: d' else (k', v') :: set k v d'
  end.

(** [k in d] *)
Definition mem (k : string) (d : t) : bool :=
  match get k d with Some _ => true | None => false end.

(** [del d[k]], for a key that is present. *)
Fixpoint del (k : string) (d : t) : t :=
  match d with
  | [] => []
  | (k', v') :: d' => if String.eqb k' k then d' else (k', v') :: del k d'
  end.

(** [d.keys()] *)
Definition keys (d : t) : list string := map fst d.

End Dict.

(** ** The resource-file parser *)

Module Parser.

(** The three locals of the loop. *)
Record state : Type := State {
  selects : Dict.t;
  name : option string;
  query : list string
}.

Definition initial : state := State [] None [].

(** [trn = lambda x: str(x).strip().upper()] *)
Definition trn (x : option string) : string := Py.upper (Py.strip (Py.str x)).

(** [delete_comments]: [find] answers -1 on a line without [--], and the
    slice then drops the last character. *)
Definition delete_comments (line : string) : string :=
  Py.slice_to line (Py.find line "--").

Definition is_set (x : option string) : bool :=
  match x with Some _ => true | None => false end.

(** The second if-tree of the loop body (lines 139-149). *)
Definition accumulate (st : state) (line : string) : state :=
  if Re.start_query line && is_set (name st) then
    State (selects st) (name st) (query st ++ [line])
  else if Re.stop_query line && is_set (name st) then
    let q := query st ++ [line] in
    State (Dict.set (trn (name st)) (Py.join " " (map delete_comments q)) (selects st))
          None []
  else match query st with
       | [] => st
       | _ :: _ => State (selects st) (name st) (query st ++ [line])
       end.

(** One iteration of the loop (lines 127-149); [continue] on a comment
    line skips the second if-tree. *)
Definition step (st : state) (line : string) : state :=
  match Re.name_pattern line with
  | Some n => accumulate (State (selects st) (Some n) (query st)) line
  | None =>
      if Re.ignore_line line then st
      else if Re.start_query line && Re.stop_query line then
        accumulate (State (Dict.set (trn (name st)) line (selects st)) None (query st))
                   line
      else accumulate st line
  end.

Definition run (st : state) (lines : list string) : state :=
  fold_left step lines st.

(** [parse text]: the loop over the text of the opened file. *)
Definition parse (text : string) : Dict.t :=
  selects (run initial (Py.readlines text)).

(** The lines the spec calls the start of a query: those that begin
    with SELECT or select. *)
Definition begins_with_select (line : string) : bool :=
  Py.startswith line "SELECT" || Py.startswith line "select".

End Parser.

(** [OWSql._parse_sql_resource_file]: [open_file] is the file system,
    answering the text of a readable file. The method opens
    [self.path_to_res_file]; its argument [filename] is not used. *)
Definition _parse_sql_resource_file
    (open_file : string → option string) (path_to_res_file filename : string)
  : result Dict.t :=
  match open_file path_to_res_file with
  | None => Raised OSError
  | Some text => Ok (Parser.parse text)
  end.

(** ** The widget *)

Definition MAX_DL_LIMIT : Z := 1000000.

(** A backend, by the two attributes the widget reads with [getattr]: an
    absent [display_name] reads as the empty string, an absent
    [missing_extension] as no extension. *)
Record Backend : Type := MkBackend {
  display_name : string;
  missing_extension : list string
}.

Definition is_postgres (backend : option Backend) : bool :=
  match backend with
  | Some b => String.eqb (display_name b) "PostgreSQL"
  | None => false
  end.

(** The buttons added to a [QMessageBox], and the answers of
    [QMessageBox.question]. *)
Inductive Button : Type := YesButton | NoButton | SampleButton.
Inductive Answer : Type := Yes | No.

Definition Button_eqb (a b : Button) : bool :=
  match a, b with
  | YesButton, YesButton | NoButton, NoButton | SampleButton, SampleButton => true
  | _, _ => false
  end.

(** [confirm.clickedButton() == button] *)
Definition clicked_is (clicked : option Button) (button : Button) : bool :=
  match clicked with
  | Some b => Button_eqb b button
  | None => false
  end.

(** What the widget asks of the world outside the file, in the order it
    asks. *)
Inductive Event : Type :=
| ExecuteSql (statement : string)
| OpenSqlTable (what : string)
| DiscoveryPrompt (offered : list Button)
| SampleTime (seconds : Z)
| GetDomain
| DownloadPrompt (offered : list Button)
| SamplePercentage (percentage : QArith_base.Q)
| TooBigWarning
| DownloadQuestion
| DownloadData (limit : Z)
| ListTables.

Definition is_statement (e : Event) : bool :=
  match e with ExecuteSql _ => true | _ => false end.

(** The statements and the opening of the relation. *)
Definition is_query (e : Event) : bool :=
  match e with ExecuteSql _ | OpenSqlTable _ => true | _ => false end.

(** The two prompts that ask for a decision on the download. *)
Definition is_download_decision (e : Event) : bool :=
  match e with DownloadPrompt _ | DownloadQuestion => true | _ => false end.

Definition is_decision (e : Event) : bool :=
  match e with
  | DiscoveryPrompt _ | DownloadPrompt _ | DownloadQuestion => true
  | _ => false
  end.

Section Widget.

(** Rows and domains are those of [Orange.data]. *)
Context {Row Domain : Type}.

(** An [SqlTable]: its estimated length, the rows behind it, its domain. *)
Record Relation : Type := MkRelation {
  approx_len : Z;
  rows : list Row;
  domain : Domain
}.

(** What [get_table] returns: the [SqlTable] itself, or the [Table] built
    from the downloaded rows. *)
Inductive Data : Type :=
| Remote (t : Relation)
| Local (X : list Row) (d : Domain).

(** The attributes [OWSql] inherits from [OWBaseSql]. *)
Record Inherited : Type := MkInherited {
  backend : option Backend;
  database_desc : option Dict.t;
  data_desc_table : option Data;
  Error_connection : option string
}.

(** The settings and controls of [OWSql]. [tables] is the model of
    [tablecombo], an entry standing for its text; [sqltext] is the text
    of the editor. *)
Record OWSql : Type := MkOWSql {
  base : Inherited;
  tables : list string;
  currentIndex : Z;
  file_queries : Dict.t;
  sqltext : string;
  sql : string;
  table : option string;
  guess_values : bool;
  download : bool;
  downloadcb_enabled : bool;
  materialize : bool;
  materialize_table_name : string;
  Information_data_sampled : bool;
  Warning_missing_extension : option string
}.

Definition set_backend (v : option Backend) (b : Inherited) : Inherited :=
  MkInherited v (database_desc b) (data_desc_table b) (Error_connection b).
Definition set_database_desc (v : option Dict.t) (b : Inherited) : Inherited :=
  MkInherited (backend b) v (data_desc_table b) (Error_connection b).
Definition set_data_desc_table (v : option Data) (b : Inherited) : Inherited :=
  MkInherited (backend b) (database_desc b) v (Error_connection b).
Definition set_Error_connection (v : option string) (b : Inherited) : Inherited :=
  MkInherited (backend b) (database_desc b) (data_desc_table b) v.

Definition set_base (v : Inherited) (w : OWSql) : OWSql :=
  MkOWSql v (tables w) (currentIndex w) (file_queries w) (sqltext w) (sql w)
    (table w) (guess_values w) (download w) (downloadcb_enabled w)
    (materialize w) (materialize_table_name w) (Information_data_sampled w)
    (Warning_missing_extension w).
Definition set_tables (v : list string) (w : OWSql) : OWSql :=
  MkOWSql (base w) v (currentIndex w) (file_queries w) (sqltext w) (sql w)
    (table w) (guess_values w) (download w) (downloadcb_enabled w)
    (materialize w) (materialize_table_name w) (Information_data_sampled w)
    (Warning_missing_extension w).
Definition set_currentIndex (v : Z) (w : OWSql) : OWSql :=
  MkOWSql (base w) (tables w) v (file_queries w) (sqltext w) (sql w)
    (table w) (guess_values w) (download w) (downloadcb_enabled w)
    (materialize w) (materialize_table_name w) (Information_data_sampled w)
    (Warning_missing_extension w).
Definition set_sqltext (v : string) (w : OWSql) : OWSql :=
  MkOWSql (base w) (tables w) (currentIndex w) (file_queries w) v (sql w)
    (table w) (guess_values w) (download w) (downloadcb_enabled w)
    (materialize w) (materialize_table_name w) (Information_data_sampled w)
    (Warning_missing_extension w).
Definition set_sql (v : string) (w : OWSql) : OWSql :=
  MkOWSql (base w) (tables w) (currentIndex w) (file_queries w) (sqltext w) v
    (table w) (guess_values w) (download w) (downloadcb_enabled w)
    (materialize w) (materialize_table_name w) (Information_data_sampled w)
    (Warning_missing_extension w).
Definition set_table (v : option string) (w : OWSql) : OWSql :=
  MkOWSql (base w) (tables w) (currentIndex w) (file_queries w) (sqltext w)
    (sql w) v (guess_values w) (download w) (downloadcb_enabled w)
    (materialize w) (materialize_table_name w) (Information_data_sampled w)
    (Warning_missing_extension w).
Definition set_guess_values (v : bool) (w : OWSql) : OWSql :=
  MkOWSql (base w) (tables w) (currentIndex w) (file_queries w) (sqltext w)
    (sql w) (table w) v (download w) (downloadcb_enabled w)
    (materialize w) (materialize_table_name w) (Information_data_sampled w)
    (Warning_missing_extension w).
Definition set_download (v : bool) (w : OWSql) : OWSql :=
  MkOWSql (base w) (tables w) (currentIndex w) (file_queries w) (sqltext w)
    (sql w) (table w) (guess_values w) v (downloadcb_enabled w)
    (materialize w) (materialize_table_name w) (Information_data_sampled w)
    (Warning_missing_extension w).
Definition set_downloadcb_enabled (v : bool) (w : OWSql) : OWSql :=
  MkOWSql (base w) (tables w) (currentIndex w) (file_queries w) (sqltext w)
    (sql w) (table w) (guess_values w) (download w) v
    (materialize w) (materialize_table_name w) (Information_data_sampled w)
    (Warning_missing_extension w).
Definition set_Information_data_sampled (v : bool) (w : OWSql) : OWSql :=
  MkOWSql (base w) (tables w) (currentIndex w) (file_queries w) (sqltext w)
    (sql w) (table w) (guess_values w) (download w) (downloadcb_enabled w)
    (materialize w) (materialize_table_name w) v
    (Warning_missing_extension w).
Definition set_materialize (v : bool) (w : OWSql) : OWSql :=
  MkOWSql (base w) (tables w) (currentIndex w) (file_queries w) (sqltext w)
    (sql w) (table w) (guess_values w) (download w) (downloadcb_enabled w)
    v (materialize_table_name w) (Information_data_sampled w)
    (Warning_missing_extension w).
Definition set_materialize_table_name (v : string) (w : OWSql) : OWSql :=
  MkOWSql (base w) (tables w) (currentIndex w) (file_queries w) (sqltext w)
    (sql w) (table w) (guess_values w) (download w) (downloadcb_enabled w)
    (materialize w) v (Information_data_sampled w)
    (Warning_missing_extension w).
Definition set_Warning_missing_extension (v : option string) (w : OWSql) : OWSql :=
  MkOWSql (base w) (tables w) (currentIndex w) (file_queries w) (sqltext w)
    (sql w) (table w) (guess_values w) (download w) (downloadcb_enabled w)
    (materialize w) (materialize_table_name w) (Information_data_sampled w) v.

(** What the file imports or inherits and does not define: the two
    thresholds of [Orange.data.sql.table], the backend's
    [execute_sql_query] and [list_tables], the [SqlTable] constructor and
    methods (connection parameters and backend type being those of the
    session), the user's answers to the three prompts, and the two
    inherited methods the widget extends. A [Some] from
    [execute_sql_query] and an [inl] from [list_tables] or [SqlTable] are
    the message of the [BackendError] raised; the other calls return.
    [list_tables] is asked for the schema of the session. *)
Record Env : Type := MkEnv {
  LARGE_TABLE : Z;
  AUTO_DL_LIMIT : Z;
  execute_sql_query : string → option string;
  list_tables : string + list string;
  SqlTable : string → string + Relation;
  sample_time : Relation → Z → Relation;
  get_domain : Relation → Domain;
  sample_percentage : Relation → QArith_base.Q → Relation;
  discovery_clicked : list Button → option Button;
  download_clicked : list Button → option Button;
  question_answer : Answer;
  super_on_connection_success : Inherited → Inherited;
  super_clear : Inherited → Inherited
}.

(** Modelled from the spec: [SqlTable.download_data(limit)], of
    [Orange.data.sql.table], which is not in this file. The spec has the
    relation materialized fully into local memory, bounded by the row cap
    given: the rows of the relation, up to [limit] of them. *)
Definition download_data (t : Relation) (limit : Z) : list Row :=
  take (Z.to_nat limit) (rows t).

(** *** Running a method

    A method runs on the widget and appends to the trace of events; it
    falls through to the next statement, returns from [get_table], or
    raises. *)
Record St : Type := MkSt {
  self : OWSql;
  trace : list Event
}.

Inductive flow (A : Type) : Type :=
| Next (a : A)
| Return (r : option Data)
| Raise (e : exn).
Arguments Next {A} a.
Arguments Return {A} r.
Arguments Raise {A} e.

Definition M (A : Type) : Type := St → flow A * St.

#[global] Instance M_ret : MRet M := λ A a s, (Next a, s).
#[global] Instance M_bind : MBind M := λ A B k m s,
  match m s with
  | (Next a, s') => k a s'
  | (Return r, s') => (Return r, s')
  | (Raise e, s') => (Raise e, s')
  end.

Definition get : M OWSql := λ s, (Next (self s), s).
Definition modify (f : OWSql → OWSql) : M unit :=
  λ s, (Next tt, MkSt (f (self s)) (trace s)).
Definition modify_base (f : Inherited → Inherited) : M unit :=
  modify (λ w, set_base (f (base w)) w).
Definition emit (e : Event) : M unit :=
  λ s, (Next tt, MkSt (self s) (trace s ++ [e])).
Definition return_ {A} (r : option Data) : M A := λ s, (Return r, s).
Definition raise {A} (e : exn) : M A := λ s, (Raise e, s).

(** [try: body / except BackendError as ex: handler(str(ex))] *)
Definition try_except_BackendError {A} (body : M A) (handler : string → M A) : M A :=
  λ s, match body s with
       | (Raise (BackendError msg), s') => handler msg s'
       | r => r
       end.

(** *** The methods *)

Variable env : Env.

(** [self.Error.connection(msg)] and [self.Error.connection.clear()] *)
Definition Error_connection_show (msg : string) : M unit :=
  modify_base (set_Error_connection (Some msg)).
Definition Error_connection_clear : M unit :=
  modify_base (set_Error_connection None).

(** [self.tablecombo.itemText(i)]: the empty string off the model. *)
Definition itemText (w : OWSql) (i : Z) : string :=
  if i <? 0 then "" else default "" (tables w !! Z.to_nat i).

(** [self.tables[i]] for [0 <= i]. *)
Definition tables_getitem (i : Z) : M string :=
  w ← get;
  match tables w !! Z.to_nat i with
  | Some t => mret t
  | None => raise IndexError
  end.

(** [self.database_desc[k] = v]; [None] supports no item assignment. *)
Definition database_desc_setitem (k v : string) : M unit :=
  w ← get;
  match database_desc (base w) with
  | Some d => modify_base (set_database_desc (Some (Dict.set k v d)))
  | None => raise TypeError
  end.

(** [if k in self.database_desc: del self.database_desc[k]] *)
Definition database_desc_discard (k : string) : M unit :=
  w ← get;
  match database_desc (base w) with
  | Some d =>
      if Dict.mem k d then modify_base (set_database_desc (Some (Dict.del k d)))
      else mret tt
  | None => raise TypeError
  end.

(** [with self.backend.execute_sql_query(statement): pass] *)
Definition backend_execute_sql_query (statement : string) : M unit :=
  w ← get;
  match backend (base w) with
  | None => raise AttributeError
  | Some _ =>
      emit (ExecuteSql statement);;
      match execute_sql_query env statement with
      | Some msg => raise (BackendError msg)
      | None => mret tt
      end
  end.

(** The three statements of lines 324-332. *)
Definition materialize_statements (name query : string) : list string :=
  [ "DROP TABLE IF EXISTS " +:+ name;
    "CREATE TABLE " +:+ name +:+ " AS " +:+ query;
    "ANALYZE " +:+ name ].

(** Lines 318-335: the materialization of a custom query. *)
Definition materialize_query : M unit :=
  w ← get;
  if materialize w then
    if String.eqb (materialize_table_name w) "" then
      Error_connection_show "Specify a table name to materialize the query";;
      return_ None
    else
      try_except_BackendError
        (backend_execute_sql_query
           ("DROP TABLE IF EXISTS " +:+ materialize_table_name w);;
         backend_execute_sql_query
           ("CREATE TABLE " +:+ materialize_table_name w +:+ " AS " +:+ sql w);;
         backend_execute_sql_query
           ("ANALYZE " +:+ materialize_table_name w))
        (λ msg, Error_connection_show msg;; return_ None)
  else mret tt.

(** Lines 296-335: from the selection to [what], the text or table name
    the relation is opened on. *)
Definition resolve_source : M string :=
  w ← get;
  let curIdx := currentIndex w in
  if curIdx <=? 0 then
    match database_desc (base w) with
    | Some (_ :: _) => database_desc_setitem "Table" "(None)"
    | _ => mret tt
    end;;
    modify_base (set_data_desc_table None);;
    return_ None
  else if Dict.mem (itemText w curIdx) (file_queries w) then
    t ← tables_getitem curIdx;
    modify (set_table (Some t));;
    database_desc_setitem "Table" "Loaded from File";;
    modify (set_sql (sqltext w));;
    mret (sqltext w)
  else if negb (String.eqb (itemText w curIdx) "Custom SQL") then
    t ← tables_getitem curIdx;
    modify (set_table (Some t));;
    database_desc_setitem "Table" t;;
    database_desc_discard "Query";;
    mret t
  else
    modify (set_sql (sqltext w));;
    modify (set_table (Some "Custom SQL"));;
    materialize_query;;
    mret (sqltext w).

(** Lines 337-348: [SqlTable(..., what, ...)] under its [try]. *)
Definition open_relation (what : string) : M Relation :=
  try_except_BackendError
    (emit (OpenSqlTable what);;
     match SqlTable env what with
     | inl msg => raise (BackendError msg)
     | inr t => mret t
     end)
    (λ msg, Error_connection_show msg;; return_ None).

(** Lines 352-370: the prompt before attribute discovery on a large
    table; the answer is [sample]. *)
Definition discovery_decision (t : Relation) : M bool :=
  w ← get;
  if (LARGE_TABLE env <? approx_len t) && guess_values w then
    let postgres := is_postgres (backend (base w)) in
    let offered := [YesButton; NoButton] ++ (if postgres then [SampleButton] else []) in
    emit (DiscoveryPrompt offered);;
    let clicked := discovery_clicked env offered in
    if clicked_is clicked NoButton then
      modify (set_guess_values false);; mret false
    else if postgres && clicked_is clicked SampleButton then mret true
    else mret false
  else mret false.

(** Lines 372-382: attribute discovery, on the table or on a sample. *)
Definition discover (t : Relation) (sample : bool) : M Relation :=
  modify (set_Information_data_sampled false);;
  w ← get;
  if guess_values w then
    d ← (if sample then
           emit (SampleTime 1);;
           let s := sample_time env t 1 in
           emit GetDomain;;
           modify (set_Information_data_sampled true);;
           mret (get_domain env s)
         else
           emit GetDomain;;
           mret (get_domain env t));
    mret (MkRelation (approx_len t) (rows t) d)
  else mret t.

(** [AUTO_DL_LIMIT / table.approx_len() * 100], as the exact rational;
    Python rounds it to a float. *)
Definition sample_size (len : Z) : QArith_base.Q :=
  QArith_base.Qmult
    (QArith_base.Qdiv (QArith_base.inject_Z (AUTO_DL_LIMIT env))
                      (QArith_base.inject_Z len))
    (QArith_base.inject_Z 100).

(** Lines 385-419: the decision on a table above the automatic download
    limit; the answer is the table to download. *)
Definition download_decision (t : Relation) : M Relation :=
  w ← get;
  if AUTO_DL_LIMIT env <? approx_len t then
    if is_postgres (backend (base w)) then
      let offered :=
        (if approx_len t <=? MAX_DL_LIMIT then [YesButton] else [])
        ++ [NoButton; SampleButton] in
      emit (DownloadPrompt offered);;
      let clicked := download_clicked env offered in
      if clicked_is clicked NoButton then return_ None
      else if clicked_is clicked SampleButton then
        if approx_len t =? 0 then raise ZeroDivisionError
        else
          emit (SamplePercentage (sample_size (approx_len t)));;
          mret (sample_percentage env t (sample_size (approx_len t)))
      else mret t
    else if MAX_DL_LIMIT <? approx_len t then
      emit TooBigWarning;;
      return_ None
    else
      emit DownloadQuestion;;
      match question_answer env with
      | No => return_ None
      | Yes => mret t
      end
  else mret t.

(** Lines 384-424. *)
Definition download_or_not (t : Relation) : M Data :=
  w ← get;
  if download w then
    t' ← download_decision t;
    emit (DownloadData MAX_DL_LIMIT);;
    mret (Local (download_data t' MAX_DL_LIMIT) (domain t'))
  else mret (Remote t).

(** Lines 350-424: from the opened relation to the data. *)
Definition ingest (t : Relation) : M Data :=
  Error_connection_clear;;
  sample ← discovery_decision t;
  t' ← discover t sample;
  download_or_not t'.

(** [OWSql.get_table] *)
Definition get_table : M Data :=
  what ← resolve_source;
  t ← open_relation what;
  ingest t.

(** The value a call of [get_table] gives its caller. *)
Definition call_get_table : M (option Data) :=
  λ s, match get_table s with
       | (Next d, s') => (Next (Some d), s')
       | (Return r, s') => (Next r, s')
       | (Raise e, s') => (Raise e, s')
       end.

(** Modelled from the spec: [OWBaseSql.open_table], inherited and not in
    this file: one resolve-and-ingest cycle, whose dataset supersedes the
    previous one. *)
Definition open_table : M unit :=
  data ← call_get_table;
  modify_base (set_data_desc_table data).

(** [self.tablecombo.findText(text)] *)
Fixpoint findText (items : list string) (text : string) : Z :=
  match items with
  | [] => -1
  | x :: items' =>
      if String.eqb x text then 0
      else let i := findText items' text in if i =? -1 then -1 else i + 1
  end.

(** [self.tables.extend(items)], on the model of [tablecombo]: a combo
    box without a current item makes the first row current when rows
    come into its empty model. *)
Definition rows_inserted (items : list string) (w : OWSql) : OWSql :=
  let first :=
    match tables w, items with
    | [], _ :: _ => currentIndex w <? 0
    | _, _ => false
    end in
  set_currentIndex (if first then 0 else currentIndex w)
    (set_tables (tables w ++ items) w).

Definition tables_extend (items : list string) : M unit :=
  modify (rows_inserted items).

(** [self.tables.append(item)] *)
Definition tables_append (item : string) : M unit := tables_extend [item].

(** [self.backend.list_tables(self.schema)] *)
Definition backend_list_tables : M (list string) :=
  emit ListTables;;
  match list_tables env with
  | inl msg => raise (BackendError msg)
  | inr listed => mret listed
  end.

(** [OWSql.refresh_tables]; emptying the model leaves the combo box
    without a current item. *)
Definition refresh_tables : M unit :=
  modify (set_tables []);;
  modify (set_currentIndex (-1));;
  w ← get;
  match backend (base w) with
  | None => modify_base (set_data_desc_table None)
  | Some _ =>
      tables_append "Select a table";;
      tables_append "Custom SQL";;
      tables_extend (Dict.keys (file_queries w));;
      listed ← backend_list_tables;
      tables_extend listed;;
      w ← get;
      let index := findText (tables w) (Py.str (table w)) in
      modify (set_currentIndex (if index =? -1 then 0 else index))
  end.

(** [OWSql.select_table] *)
Definition select_table : M unit :=
  w ← get;
  let table_name := itemText w (currentIndex w) in
  if negb (String.eqb table_name "Custom SQL")
     && negb (Dict.mem table_name (file_queries w)) then
    open_table
  else
    modify_base (set_data_desc_table None);;
    database_desc_setitem "Table" "(None)";;
    modify (set_table None);;
    match Dict.get table_name (file_queries w) with
    | Some q => modify (set_sqltext q)
    | None => mret tt
    end.

(** [OWSql.on_connection_success] *)
Definition on_connection_success : M unit :=
  w ← get;
  match from_option missing_extension [] (backend (base w)) with
  | [] => mret tt
  | (_ :: _) as missing =>
      modify (set_Warning_missing_extension (Some (Py.join ", " missing)));;
      modify (set_download true);;
      modify (set_downloadcb_enabled false)
  end;;
  (if negb (is_postgres (backend (base w))) then
     modify (set_download true);;
     modify (set_downloadcb_enabled false)
   else mret tt);;
  modify_base (super_on_connection_success env);;
  refresh_tables;;
  select_table.

(** [OWSql.clear]; clearing the combo box empties its model. *)
Definition clear : M unit :=
  modify_base (super_clear env);;
  modify (set_Warning_missing_extension None);;
  modify (set_downloadcb_enabled true);;
  modify (set_tables []);;
  modify (set_currentIndex (-1)).

(** The selection is the entry Custom SQL: the tests of lines 297, 303
    and 309 all fail, and line 316 is reached. *)
Definition custom_selected (w : OWSql) : bool :=
  negb (currentIndex w <=? 0)
  && negb (Dict.mem (itemText w (currentIndex w)) (file_queries w))
  && String.eqb (itemText w (currentIndex w)) "Custom SQL".

(** *** The widget in use

    What can happen to a widget: the inherited [connect] has opened a
    backend and calls [on_connection_success]; [clear] is called; the user
    works one of the controls of [_add_tables_controls]. A check box sets
    its attribute and runs its callback; a disabled one takes no click. *)
Inductive Action : Type :=
| Connected (b : Backend)
| Cleared
| ClickDownload
| ClickGuessValues
| ClickExecute
| ActivateTable (index : Z)
| EditSql (text : string)
| EditMaterialize (on : bool) (name : string).

Definition perform (a : Action) : M unit :=
  match a with
  | Connected b =>
      modify_base (set_backend (Some b));;
      on_connection_success
  | Cleared => clear
  | ClickDownload =>
      w ← get;
      if downloadcb_enabled w then
        modify (set_download (negb (download w)));; open_table
      else mret tt
  | ClickGuessValues =>
      w ← get;
      modify (set_guess_values (negb (guess_values w)));; open_table
  | ClickExecute => open_table
  | ActivateTable index =>
      modify (set_currentIndex index);; select_table
  | EditSql text => modify (set_sqltext text)
  | EditMaterialize on name =>
      modify (set_materialize on);;
      modify (set_materialize_table_name name)
  end.

(** The state after a sequence of actions; an exception that escapes a
    callback leaves the widget as it was when raised. *)
Definition after (actions : list Action) (s : St) : St :=
  fold_left (λ s a, snd (perform a s)) actions s.

Definition is_Cleared (a : Action) : bool :=
  match a with Cleared => true | _ => false end.

End Widget.

Arguments Next {Row Domain A} a.
Arguments Return {Row Domain A} r.
Arguments Raise {Row Domain A} e.

(** ** Example inputs *)

Module Example.

(** Two resource files with the lines [-- name:A] and [SELECT 1;]: the
    second line with its newline, and without. *)
Definition terminated : string := "-- name:A" +:+ Py.NL +:+ "SELECT 1;" +:+ Py.NL.
Definition unterminated : string := "-- name:A" +:+ Py.NL +:+ "SELECT 1;".

Definition file_system (text : string) (path : string) : option string :=
  if String.eqb path "queries.sql" then Some text else None.

(** A query over three lines, with a subquery in lower case on the last. *)
Definition subquery : string :=
  "-- name:A" +:+ Py.NL +:+
  "SELECT a FROM t" +:+ Py.NL +:+
  "WHERE b IN (select b from u);" +:+ Py.NL.

(** The parser in the middle of a query named A. *)
Definition accumulating : Parser.state :=
  Parser.run Parser.initial ["-- name:A" +:+ Py.NL; "SELECT a" +:+ Py.NL].

Definition relation (len : Z) : @Relation nat unit :=
  MkRelation len [1; 2; 3]%nat tt.

(** A session whose backend fails on the statements [fails] names, whose
    relations have the estimated length [len], and whose user answers the
    prompts with [discovery], [download] and [answer]. *)
Definition env (fails : string → option string) (len : Z)
    (discovery download : option Button) (answer : Answer) : @Env nat unit :=
  MkEnv 100000 10000 fails (inr ["iris"]) (λ _, inr (relation len))
        (λ t _, t) (λ _, tt) (λ t _, t)
        (λ _, discovery) (λ _, download) answer id id.

Definition quiet : @Env nat unit :=
  env (λ _, None) 150 (Some YesButton) (Some YesButton) Yes.

Definition PostgreSQL : Backend := MkBackend "PostgreSQL" [].
Definition SQLite : Backend := MkBackend "SQLite" [].

(** A connected widget with the entry Custom SQL selected. *)
Definition widget (b : Backend) (download materialize : bool) (name : string)
  : @OWSql nat unit :=
  MkOWSql (MkInherited (Some b) (Some [("Host", "localhost")]) None None)
          ["Select a table"; "Custom SQL"; "iris"] 1 [] "SELECT 1" "" None
          true download true materialize name false None.

Definition start (w : @OWSql nat unit) : St := MkSt w [].

(** A backend on which creating the table fails. *)
Definition create_fails (statement : string) : option string :=
  if Py.startswith statement "CREATE" then Some "permission denied" else None.

End Example.

(** ** Assertions on the methods *)

Section Assertions.

Context {Row Domain : Type}.

(** No method returns data before its last statement. *)
Definition quiet_exit {A} (r : @flow Row Domain A) : Prop :=
  match r with Return (Some _) => False | _ => True end.

(** [keeps I m]: the method [m] keeps the invariant [I], however it
    ends. *)
Definition keeps (I : @St Row Domain → Prop) {A} (m : M A) : Prop :=
  ∀ s, I s → I (snd (m s)) ∧ quiet_exit (fst (m s)).

(** The invariant [get_table] is made of: the download option is [d],
    its check box is enabled as [c] says, and the events since the trace
    [before] all pass [p]. *)
Definition stable (p : Event → bool) (d c : bool) (before : list Event)
    (s : @St Row Domain) : Prop :=
  download (self s) = d ∧ downloadcb_enabled (self s) = c
  ∧ ∃ since, trace s = before ++ since ∧ forallb p since = true.

(** What [get_table] may answer when it downloads. *)
Definition within_limit (r : @flow Row Domain (@Data Row Domain)) : Prop :=
  match r with
  | Next (Local X _) => Z.of_nat (length X) ≤ MAX_DL_LIMIT
  | Next (Remote _) => False
  | Return (Some _) => False
  | Return None | Raise _ => True
  end.

End Assertions.

(** * Further definitions *)

(** ** The parser, line by line *)

Module Lines.

(** A comment line that names no query: the loop skips it. *)
Definition is_comment (line : string) : bool :=
  Re.ignore_line line
  && match Re.name_pattern line with Some _ => false | None => true end.

(** A key as [trn] makes them: [upper] and [strip] leave it as it is. *)
Definition normalized (k : string) : Prop :=
  Py.upper k = k ∧ Py.strip k = k.

(** A line that goes into the buffer of a query that has started: it is
    no comment and does not end the query. *)
Definition continues (line : string) : bool :=
  negb (Re.ignore_line line) && negb (Re.stop_query line).

(** A query of one line: no comment, and both tests of line 134 pass. *)
Definition one_line (line : string) : bool :=
  negb (Re.ignore_line line) && Re.start_query line && Re.stop_query line.

(** The first character, if any, is no space. *)
Definition clean_head (s : string) : Prop :=
  match s with
  | String c _ => Py.isspace c = false
  | "" => True
  end.

End Lines.

(** [d.update(other)]: the entries of [other], assigned in order. *)
Definition dict_update (d other : Dict.t) : Dict.t :=
  fold_left (λ d kv, Dict.set kv.1 kv.2 d) other d.

(** ** Kinds of events *)

(** The prompt before attribute discovery. *)
Definition is_discovery_prompt (e : Event) : bool :=
  match e with DiscoveryPrompt _ => true | _ => false end.

(** Attribute discovery: its prompt, and the inspection of values. *)
Definition is_discovery (e : Event) : bool :=
  match e with DiscoveryPrompt _ | SampleTime _ | GetDomain => true | _ => false end.

(** The two ways to sample a table. *)
Definition is_sampling (e : Event) : bool :=
  match e with SampleTime _ | SamplePercentage _ => true | _ => false end.

(** The download, and the sample taken for it. *)
Definition is_download (e : Event) : bool :=
  match e with DownloadData _ | SamplePercentage _ => true | _ => false end.

(** ** Loading queries from a file *)

Section Loading.

Context {Row Domain : Type}.

Definition set_file_queries (v : Dict.t) (w : @OWSql Row Domain) : OWSql :=
  MkOWSql (base w) (tables w) (currentIndex w) v (sqltext w) (sql w)
    (table w) (guess_values w) (download w) (downloadcb_enabled w)
    (materialize w) (materialize_table_name w) (Information_data_sampled w)
    (Warning_missing_extension w).

(** The line edit of [_add_file_controls] and the two messages of
    [_load_tables_from_file]. *)
Record FileControls : Type := MkFileControls {
  path_to_res_file : string;
  Error_empty_path : bool;
  Error_file_os_error : bool
}.

(** [OWSql._load_tables_from_file], on the file system [open_file]: how
    the method ends, the widget and trace it leaves, and the controls it
    leaves. The messages are set before [refresh_tables] runs, and stay
    when it raises. *)
Definition _load_tables_from_file (env : @Env Row Domain)
    (open_file : string → option string) (f : FileControls) (s : St)
  : (flow unit * St) * FileControls :=
  if String.eqb (path_to_res_file f) "" then
    ((Next tt, s),
     MkFileControls (path_to_res_file f) true (Error_file_os_error f))
  else
    match _parse_sql_resource_file open_file (path_to_res_file f)
            (path_to_res_file f) with
    | Raised OSError =>
        ((Next tt, s), MkFileControls (path_to_res_file f) false true)
    | Raised e =>
        ((Raise e, s),
         MkFileControls (path_to_res_file f) false (Error_file_os_error f))
    | Ok selects =>
        ((w ← get;
          modify (set_file_queries (dict_update (file_queries w) selects));;
          refresh_tables env) s,
         MkFileControls (path_to_res_file f) false false)
    end.

(** ** What [get_table] leaves alone *)

(** The widget [w] differs from [w0] at most in what [get_table] assigns:
    the inherited description, data and message, [sql], [table],
    [guess_values] and the information message. *)
Definition frame (w0 w : @OWSql Row Domain) : Prop :=
  backend (base w) = backend (base w0)
  ∧ tables w = tables w0
  ∧ currentIndex w = currentIndex w0
  ∧ file_queries w = file_queries w0
  ∧ sqltext w = sqltext w0
  ∧ download w = download w0
  ∧ downloadcb_enabled w = downloadcb_enabled w0
  ∧ materialize w = materialize w0
  ∧ materialize_table_name w = materialize_table_name w0
  ∧ Warning_missing_extension w = Warning_missing_extension w0.

(** The invariant of a run from the widget [w0] and the trace [before]
    whose events all pass [p]. *)
Definition steady (p : Event → bool) (w0 : @OWSql Row Domain)
    (before : list Event) (s : @St Row Domain) : Prop :=
  frame w0 (self s)
  ∧ ∃ since, trace s = before ++ since ∧ forallb p since = true.

(** The events of a run: what the trace of [s'] adds to that of [s]. *)
Definition events_since (s s' : @St Row Domain) : list Event :=
  drop (length (trace s)) (trace s').

End Loading.

(** ** More example inputs *)

Module Sample.

(** The query orders, over three lines, with a comment on the first. *)
Definition orders : list string :=
  [ "-- name: orders " +:+ Py.NL;
    "SELECT id -- key" +:+ Py.NL;
    "FROM orders" +:+ Py.NL;
    "WHERE total > 0;" +:+ Py.NL ].

(** A file with two one-line queries, both named a. *)
Definition twice : list string :=
  [ "-- name:a" +:+ Py.NL; "SELECT 1;" +:+ Py.NL;
    "-- name: A " +:+ Py.NL; "SELECT 2;" +:+ Py.NL ].

(** A file that names no query. *)
Definition unnamed : string :=
  "-- two" +:+ Py.NL +:+
  "SELECT a" +:+ Py.NL +:+
  "FROM t;" +:+ Py.NL +:+
  "SELECT 1;" +:+ Py.NL +:+
  "select 2;" +:+ Py.NL.

Definition queries : Dict.t := [("ORDERS", "SELECT id FROM orders;")].

(** A connected widget that lists the query ORDERS and the table iris,
    with the entry at [index] selected. *)
Definition widget (b : Backend) (index : Z) (download guess : bool)
  : @OWSql nat unit :=
  MkOWSql (MkInherited (Some b) (Some [("Host", "localhost")]) None None)
          ["Select a table"; "Custom SQL"; "ORDERS"; "iris"] index queries
          "SELECT 1" "" None guess download true false "" false None.

(** A session in which no relation can be opened. *)
Definition unreachable : @Env nat unit :=
  MkEnv 100000 10000 (λ _, None) (inr ["iris"]) (λ _, inl "connection refused")
        (λ t _, t) (λ _, tt) (λ t _, t)
        (λ _, None) (λ _, None) No id id.

Definition files : FileControls := MkFileControls "queries.sql" false false.

End Sample.

(** * Properties *)

(** ** Dictionaries *)

Lemma Dict_get_set_eq (k v : string) (d : Dict.t) :
  Dict.get k (Dict.set k v d) = Some v.
Proof.
  induction d as [|[k' v'] d IH]; simpl.
  - by rewrite String.eqb_refl.
  - destruct (String.eqb k' k) eqn:E; simpl.
    + by rewrite String.eqb_refl.
    + by rewrite E.
Qed.

Lemma Dict_get_set_ne (k k' v : string) (d : Dict.t) :
  k ≠ k' → Dict.get k' (Dict.set k v d) = Dict.get k' d.
Proof.
  intros Hne. induction d as [|[k0 v0] d IH]; simpl.
  - destruct (String.eqb k k') eqn:E; [|done].
    by apply String.eqb_eq in E.
  - destruct (String.eqb k0 k) eqn:E; simpl; [|by rewrite IH].
    apply String.eqb_eq in E as ->.
    destruct (String.eqb k k') eqn:E'; [|done].
    by apply String.eqb_eq in E'.
Qed.

(** ** How the parser classifies a line *)

Lemma startswith_cons (c : ascii) (p s : string) :
  Py.startswith s (String c p) = true →
  ∃ s', s = String c s' ∧ Py.startswith s' p = true.
Proof.
  unfold Py.startswith. destruct s as [|b s]; simpl; [done|].
  destruct (ascii_dec c b) as [->|]; [|done]. eauto.
Qed.

Lemma startswith_contains (s p : string) :
  Py.startswith s p = true → Py.contains s p = true.
Proof.
  unfold Py.startswith, Py.contains. intros H.
  destruct s as [|b s]; cbn [String.index].
  - by destruct p.
  - by rewrite H.
Qed.

Lemma begins_with_select_start_query (line : string) :
  Parser.begins_with_select line = true → Re.start_query line = true.
Proof.
  unfold Parser.begins_with_select, Re.start_query.
  intros [H|H]%orb_true_iff; apply orb_true_iff; [by left|right].
  by apply startswith_contains.
Qed.

Lemma begins_with_select_not_comment (line : string) :
  Parser.begins_with_select line = true →
  Re.name_pattern line = None ∧ Re.ignore_line line = false.
Proof.
  unfold Parser.begins_with_select.
  intros [H|H]%orb_true_iff; apply startswith_cons in H as (s' & -> & _); done.
Qed.

(** A line that begins with SELECT or select and ends a query takes the
    one-line branch of the first if-tree, and then the last branch of the
    second. *)
Lemma step_one_line (st : Parser.state) (line : string) :
  Parser.begins_with_select line = true →
  Re.stop_query line = true →
  Parser.step st line =
    Parser.State (Dict.set (Parser.trn (Parser.name st)) line (Parser.selects st))
                 None
                 (match Parser.query st with
                  | [] => []
                  | _ :: _ => Parser.query st ++ [line]
                  end).
Proof.
  intros Hb Hstop.
  destruct (begins_with_select_not_comment line Hb) as [Hn Hi].
  apply begins_with_select_start_query in Hb.
  unfold Parser.step, Parser.accumulate. rewrite Hn, Hi, Hb, Hstop. cbn.
  by destruct (Parser.query st).
Qed.

Lemma Dict_get_set_is_Some (k k' v : string) (d : Dict.t) :
  is_Some (Dict.get k d) → is_Some (Dict.get k (Dict.set k' v d)).
Proof.
  intros H. destruct (decide (k' = k)) as [->|Hne].
  - rewrite Dict_get_set_eq. eauto.
  - by rewrite Dict_get_set_ne.
Qed.

(** No line removes a key from the mapping. *)
Lemma step_keeps_keys (k : string) (st : Parser.state) (line : string) :
  is_Some (Dict.get k (Parser.selects st)) →
  is_Some (Dict.get k (Parser.selects (Parser.step st line))).
Proof.
  intros H.
  assert (∀ st', is_Some (Dict.get k (Parser.selects st')) →
                 is_Some (Dict.get k (Parser.selects (Parser.accumulate st' line))))
    as Hacc.
  { intros st' H'. unfold Parser.accumulate.
    repeat case_match; simpl; auto using Dict_get_set_is_Some. }
  unfold Parser.step.
  repeat case_match; try apply Hacc; simpl; auto using Dict_get_set_is_Some.
Qed.

Lemma run_keeps_keys (k : string) (lines : list string) (st : Parser.state) :
  is_Some (Dict.get k (Parser.selects st)) →
  is_Some (Dict.get k (Parser.selects (Parser.run st lines))).
Proof.
  revert st. induction lines as [|line lines IH]; intros st H; simpl; [done|].
  by apply IH, step_keeps_keys.
Qed.

(** Until a name line comes, no name is pending and nothing accumulates. *)
Lemma step_unnamed (st : Parser.state) (line : string) :
  Re.name_pattern line = None →
  Parser.name st = None → Parser.query st = [] →
  Parser.name (Parser.step st line) = None
  ∧ Parser.query (Parser.step st line) = [].
Proof.
  intros Hline Hn Hq. unfold Parser.step, Parser.accumulate.
  rewrite Hline, Hn, Hq. simpl. rewrite !andb_false_r.
  by repeat case_match.
Qed.

Lemma run_unnamed (lines : list string) (st : Parser.state) :
  Forall (λ l, Re.name_pattern l = None) lines →
  Parser.name st = None → Parser.query st = [] →
  Parser.name (Parser.run st lines) = None
  ∧ Parser.query (Parser.run st lines) = [].
Proof.
  intros Hlines. revert st.
  induction Hlines as [|line lines Hline _ IH]; intros st Hn Hq; simpl; [done|].
  destruct (step_unnamed st line Hline Hn Hq) as [Hn' Hq']. by apply IH.
Qed.

Lemma run_app (st : Parser.state) (l1 l2 : list string) :
  Parser.run st (l1 ++ l2) = Parser.run (Parser.run st l1) l2.
Proof. apply fold_left_app. Qed.

(** ** The claims on the parser *)

(** C5. The file of the two lines [-- name:A] and [SELECT 1;] parses to
    the one entry A. Its value is the second line as read: the text
    [SELECT 1;] when the file ends there, and the text with its newline
    when the line is terminated. *)
Theorem parse_one_line_query :
  _parse_sql_resource_file (Example.file_system Example.unterminated)
    "queries.sql" "queries.sql"
  = Ok [("A", "SELECT 1;")]
  ∧ _parse_sql_resource_file (Example.file_system Example.terminated)
      "queries.sql" "queries.sql"
    = Ok [("A", "SELECT 1;" +:+ Py.NL)].
Proof. split; reflexivity. Qed.

(** On the file whose second line is terminated, the value is not the text
    [SELECT 1;]: it ends with the newline. *)
Lemma parse_keeps_the_newline :
  _parse_sql_resource_file (Example.file_system Example.terminated)
    "queries.sql" "queries.sql"
  = Ok [("A", "SELECT 1;" +:+ Py.NL)]
  ∧ String.eqb ("SELECT 1;" +:+ Py.NL) "SELECT 1;" = false.
Proof. split; reflexivity. Qed.

(** C6. A line that begins with SELECT or select and ends a query is
    stored under the upper-cased, stripped pending name, and the pending
    name is reset. The buffer is never cleared by it; it is left as it is
    when empty, and the line is appended to it when it is not. *)
Theorem one_line_query_step (st : Parser.state) (line : string) :
  Parser.begins_with_select line = true →
  Re.stop_query line = true →
  let st' := Parser.step st line in
  Parser.selects st'
  = Dict.set (Parser.trn (Parser.name st)) line (Parser.selects st)
  ∧ Dict.get (Parser.trn (Parser.name st)) (Parser.selects st') = Some line
  ∧ Parser.name st' = None
  ∧ Parser.query st'
    = match Parser.query st with
      | [] => []
      | _ :: _ => Parser.query st ++ [line]
      end.
Proof.
  intros Hb Hs st'. unfold st'. rewrite (step_one_line st line Hb Hs). simpl.
  by rewrite Dict_get_set_eq.
Qed.

(** The first line of a file being the query [select 2;]. *)
Lemma one_line_query_step_witness :
  let line := "select 2;" in
  (Parser.begins_with_select line = true ∧ Re.stop_query line = true)
  ∧ let st' := Parser.step Parser.initial line in
    Parser.selects st'
    = Dict.set (Parser.trn (Parser.name Parser.initial)) line
        (Parser.selects Parser.initial)
    ∧ Dict.get (Parser.trn (Parser.name Parser.initial)) (Parser.selects st')
      = Some line
    ∧ Parser.name st' = None
    ∧ Parser.query st'
      = match Parser.query Parser.initial with
        | [] => []
        | _ :: _ => Parser.query Parser.initial ++ [line]
        end.
Proof.
  split; [by split|].
  exact (one_line_query_step Parser.initial "select 2;" eq_refl eq_refl).
Defined.

(** In the middle of the query A, the one-line query [SELECT 1;] is
    appended to the buffer. *)
Lemma one_line_query_joins_the_buffer :
  let line := "SELECT 1;" +:+ Py.NL in
  Parser.begins_with_select line = true
  ∧ Re.stop_query line = true
  ∧ Parser.query Example.accumulating = ["SELECT a" +:+ Py.NL]
  ∧ Parser.query (Parser.step Example.accumulating line)
    = ["SELECT a" +:+ Py.NL; line].
Proof. by repeat split. Qed.

(** C7. [start_query] takes a line for the start of a query although it
    does not begin with SELECT or select: a pending name makes it start
    the accumulation, and the last line of a query with a subquery is
    stored alone, as a query of one line. *)
Theorem start_query_matches_select_anywhere :
  let line := "WHERE b IN (select b from u);" +:+ Py.NL in
  let pending := Parser.State [] (Some "A") [] in
  Parser.begins_with_select line = false
  ∧ Re.start_query line = true
  ∧ Parser.query (Parser.step pending "FROM selections")
    = ["FROM selections"]
  ∧ Parser.parse Example.subquery = [("A", line)].
Proof. by repeat split. Qed.

(** C9. A one-line query that comes before any name line is stored under
    the key NONE, and the key stays in the mapping to the end of the
    file. *)
Theorem unnamed_one_line_query_stored_under_NONE
    (before after : list string) (line : string) :
  Forall (λ l, Re.name_pattern l = None) before →
  Parser.begins_with_select line = true →
  Re.stop_query line = true →
  Dict.get "NONE"
    (Parser.selects (Parser.run Parser.initial (before ++ [line])))
  = Some line
  ∧ is_Some (Dict.get "NONE"
       (Parser.selects (Parser.run Parser.initial (before ++ line :: after)))).
Proof.
  intros Hbefore Hb Hs.
  destruct (run_unnamed before Parser.initial Hbefore eq_refl eq_refl)
    as [Hn Hq].
  assert (Dict.get "NONE"
            (Parser.selects (Parser.run Parser.initial (before ++ [line])))
          = Some line) as Hstored.
  { rewrite run_app. simpl.
    rewrite (step_one_line _ line Hb Hs), Hn. simpl.
    apply Dict_get_set_eq. }
  split; [done|].
  replace (before ++ line :: after) with ((before ++ [line]) ++ after)
    by by rewrite <- app_assoc.
  rewrite run_app. apply run_keeps_keys. by rewrite Hstored.
Qed.

(** A query after a comment and an empty line, before the query B. *)
Lemma unnamed_one_line_query_stored_under_NONE_witness :
  let before := ["-- queries" +:+ Py.NL; Py.NL] in
  let line := "SELECT 1;" +:+ Py.NL in
  let after := ["-- name:B" +:+ Py.NL; "SELECT 2;" +:+ Py.NL] in
  (Parser.begins_with_select line = true ∧ Re.stop_query line = true)
  ∧ Dict.get "NONE"
      (Parser.selects (Parser.run Parser.initial (before ++ [line])))
    = Some line
  ∧ is_Some (Dict.get "NONE"
       (Parser.selects (Parser.run Parser.initial (before ++ line :: after)))).
Proof.
  split; [by split|].
  apply (unnamed_one_line_query_stored_under_NONE
           ["-- queries" +:+ Py.NL; Py.NL] _ ("SELECT 1;" +:+ Py.NL));
    [by repeat constructor|reflexivity|reflexivity].
Defined.

(** ** Running the widget's methods *)

Lemma forallb_weaken {A} (p q : A → bool) (l : list A) :
  (∀ x, p x = true → q x = true) → forallb p l = true → forallb q l = true.
Proof.
  intros Hpq. induction l as [|x l IH]; simpl; [done|].
  intros [Hx Hl]%andb_true_iff. by rewrite (Hpq x Hx), IH.
Qed.

Section WidgetProperties.

Context {Row Domain : Type}.
Implicit Types (env : @Env Row Domain) (s : @St Row Domain).
Implicit Types (w : @OWSql Row Domain) (t : @Relation Row Domain).
Implicit Types (I : @St Row Domain → Prop).

#[local] Abbreviation keeps := (@keeps Row Domain).
#[local] Abbreviation stable := (@stable Row Domain).

Lemma keeps_mret I {A} (a : A) : keeps I (mret a).
Proof. by intros s Hs. Qed.

Lemma keeps_bind I {A B} (m : M A) (k : A → M B) :
  keeps I m → (∀ a, keeps I (k a)) → keeps I (m ≫= k).
Proof.
  intros Hm Hk s Hs. unfold mbind, M_bind.
  destruct (Hm s Hs) as [H1 H2]. destruct (m s) as [[a|r|e] s1]; [|done..].
  by apply Hk.
Qed.

Lemma keeps_get I : keeps I get.
Proof. by intros s Hs. Qed.

Lemma keeps_return_None I {A} : keeps I (return_ (A:=A) None).
Proof. by intros s Hs. Qed.

Lemma keeps_raise I {A} e : keeps I (raise (A:=A) e).
Proof. by intros s Hs. Qed.

Lemma keeps_try I {A} (body : M A) handler :
  keeps I body → (∀ msg, keeps I (handler msg)) →
  keeps I (try_except_BackendError body handler).
Proof.
  intros Hb Hh s Hs. unfold try_except_BackendError.
  destruct (Hb s Hs) as [H1 H2].
  destruct (body s) as [[a|r|[]] s1]; try done. by apply Hh.
Qed.

Lemma stable_modify p d c before (f : OWSql → OWSql) :
  (∀ w, download w = d → downloadcb_enabled w = c →
        download (f w) = d ∧ downloadcb_enabled (f w) = c) →
  keeps (stable p d c before) (modify f).
Proof.
  intros Hf [w tr] (Hd & Hc & Ht). split; [|done].
  destruct (Hf w Hd Hc) as (? & ?). by repeat split.
Qed.

Lemma stable_emit p d c before e :
  p e = true → keeps (stable p d c before) (emit e).
Proof.
  intros He [w tr] (Hd & Hc & since & Ht & Hp). split; [|done].
  simpl in Ht; subst tr. unfold stable; simpl. repeat split; try done.
  exists (since ++ [e]). rewrite app_assoc. split; [done|].
  rewrite forallb_app, Hp. simpl. by rewrite He.
Qed.

(** The rules, applied as far as they go. *)
Ltac keeps_step :=
  first
    [ assumption
    | apply keeps_mret | apply keeps_get | apply keeps_return_None
    | apply keeps_raise
    | apply stable_emit; reflexivity
    | apply stable_modify; by intros ? <- <-
    | apply stable_modify; by intros ? ? ?
    | apply keeps_try
    | apply keeps_bind
    | progress intros
    | match goal with
      | |- keeps _ (match ?x with _ => _ end) => destruct x
      end ].
Ltac keeps_auto := repeat keeps_step.

Lemma stable_materialize_query env d c before :
  keeps (stable (λ _, true) d c before) (materialize_query env).
Proof.
  unfold materialize_query, backend_execute_sql_query, Error_connection_show,
    modify_base.
  keeps_auto.
Qed.

Lemma stable_resolve_source env d c before :
  keeps (stable (λ _, true) d c before) (resolve_source env).
Proof.
  unfold resolve_source.
  pose proof (stable_materialize_query env d c before).
  unfold database_desc_setitem, database_desc_discard, tables_getitem,
    modify_base.
  keeps_auto.
Qed.

Lemma stable_open_relation env d c before what :
  keeps (stable (λ _, true) d c before) (open_relation env what).
Proof.
  unfold open_relation, Error_connection_show, modify_base. keeps_auto.
Qed.

Lemma stable_ingest env p d c before t :
  (∀ e, is_query e = false → p e = true) →
  keeps (stable p d c before) (ingest env t).
Proof.
  intros Hp.
  unfold ingest, Error_connection_clear, discovery_decision, discover,
    download_or_not, download_decision, modify_base.
  repeat first [ apply stable_emit; by apply Hp | keeps_step ].
Qed.

Lemma stable_get_table env d c before :
  keeps (stable (λ _, true) d c before) (get_table env).
Proof.
  unfold get_table.
  apply keeps_bind; [apply stable_resolve_source|intros what].
  apply keeps_bind; [apply stable_open_relation|intros t].
  by apply stable_ingest.
Qed.

Lemma stable_initially p d c s :
  download (self s) = d → downloadcb_enabled (self s) = c →
  stable p d c (trace s) s.
Proof.
  intros Hd Hc. repeat split; try done. exists []. by rewrite app_nil_r.
Qed.

Lemma stable_call_get_table env d c before :
  keeps (stable (λ _, true) d c before) (call_get_table env).
Proof.
  intros s Hs. unfold call_get_table.
  destruct (stable_get_table env d c before s Hs) as [H _].
  by destruct (get_table env s) as [[?|?|?] ?].
Qed.

Lemma stable_open_table env d c before :
  keeps (stable (λ _, true) d c before) (open_table env).
Proof.
  unfold open_table, modify_base.
  apply keeps_bind; [apply stable_call_get_table|]. keeps_auto.
Qed.

Lemma stable_refresh_tables env d c before :
  keeps (stable (λ _, true) d c before) (refresh_tables env).
Proof. unfold refresh_tables, modify_base. keeps_auto. Qed.

Lemma stable_select_table env d c before :
  keeps (stable (λ _, true) d c before) (select_table env).
Proof.
  unfold select_table.
  pose proof (stable_open_table env d c before).
  unfold database_desc_setitem, modify_base.
  apply keeps_bind; [apply keeps_get|intros w].
  destruct (_ && _); [done|]. keeps_auto.
Qed.

(** *** What [get_table] returns when it downloads *)

Lemma download_data_length t limit :
  0 ≤ limit → Z.of_nat (length (download_data t limit)) ≤ limit.
Proof. intros H. unfold download_data. rewrite length_take. lia. Qed.

Lemma download_or_not_within_limit env t s :
  download (self s) = true →
  within_limit (fst (download_or_not env t s)).
Proof.
  intros Hd. unfold download_or_not, mbind, M_bind, get, emit. simpl.
  rewrite Hd.
  destruct (download_decision env t s) as [[t'|[d|]|e] s1] eqn:E; simpl;
    try done.
  - by apply download_data_length.
  - pose proof (stable_initially (λ _, true) _ _ s eq_refl eq_refl) as Hs.
    assert (keeps (stable (λ _ : Event, true) (download (self s))
                     (downloadcb_enabled (self s)) (trace s))
              (download_decision env t)) as Hk.
    { unfold download_decision. keeps_auto. }
    destruct (Hk s Hs) as [_ Hq]. by rewrite E in Hq.
Qed.

Lemma bind_within_limit I {A} (m : M A) (k : A → M (@Data Row Domain)) :
  keeps I m →
  (∀ a s, I s → within_limit (fst (k a s))) →
  ∀ s, I s → within_limit (fst ((m ≫= k) s)).
Proof.
  intros Hm Hk s Hs. unfold mbind, M_bind.
  destruct (Hm s Hs) as [H1 H2].
  destruct (m s) as [[a|[d|]|e] s1]; simpl in *; try done. by apply Hk.
Qed.

Lemma stable_within_limit env c before s :
  stable (λ _, true) true c before s → within_limit (fst (get_table env s)).
Proof.
  revert s. unfold get_table.
  apply bind_within_limit; [apply stable_resolve_source|intros what].
  apply bind_within_limit; [apply stable_open_relation|intros t].
  unfold ingest.
  apply bind_within_limit;
    [unfold Error_connection_clear, modify_base; keeps_auto|intros _].
  apply bind_within_limit; [unfold discovery_decision; keeps_auto|intros sample].
  apply bind_within_limit; [unfold discover; keeps_auto|intros t'].
  intros s (Hd & _). by apply download_or_not_within_limit.
Qed.

Lemma get_table_within_limit env s :
  download (self s) = true → within_limit (fst (get_table env s)).
Proof.
  intros Hd. eapply stable_within_limit. by apply stable_initially.
Qed.

(** *** The custom query *)

Lemma custom_selected_tests w :
  custom_selected w = true →
  (currentIndex w <=? 0) = false
  ∧ Dict.mem (itemText w (currentIndex w)) (file_queries w) = false
  ∧ String.eqb (itemText w (currentIndex w)) "Custom SQL" = true.
Proof.
  unfold custom_selected.
  intros [[H1 H2]%andb_true_iff H3]%andb_true_iff.
  by apply negb_true_iff in H1, H2.
Qed.

(** With Custom SQL selected, [resolve_source] is lines 316-335. *)
Lemma resolve_source_custom env s :
  custom_selected (self s) = true →
  resolve_source env s
  = (materialize_query env;; mret (sqltext (self s)))
      (MkSt (set_table (Some "Custom SQL") (set_sql (sqltext (self s)) (self s)))
            (trace s)).
Proof.
  intros (H1 & H2 & H3)%custom_selected_tests. destruct s as [w tr].
  unfold resolve_source, mbind, M_bind, get, modify. simpl in *.
  by rewrite H1, H2, H3.
Qed.

(** From the opening of the relation on, the trace grows by the opening
    and by events that are no queries. *)
Lemma open_and_ingest_trace env what s :
  ∃ rest,
    trace (snd ((open_relation env what ≫= ingest env) s))
    = trace s ++ OpenSqlTable what :: rest
    ∧ forallb (λ e, negb (is_query e)) rest = true.
Proof.
  destruct s as [w tr].
  unfold open_relation, try_except_BackendError, Error_connection_show,
    modify_base, mbind, M_bind, emit, modify, raise, return_, mret, M_ret.
  simpl. destruct (SqlTable env what) as [msg|t]; simpl.
  - by exists [].
  - set (s1 := MkSt w (tr ++ [OpenSqlTable what])).
    destruct (stable_ingest env (λ e, negb (is_query e)) (download w)
                (downloadcb_enabled w) (trace s1) t) with (s := s1)
      as [(_ & _ & rest & Ht & Hrest) _].
    { by intros e ->. }
    { by apply stable_initially. }
    exists rest. split; [|done].
    destruct (ingest env t s1) as [[?|?|?] s2]; simpl in *;
      by rewrite Ht, <- app_assoc.
Qed.

(** The three statements, run on a widget with a backend. *)
Lemma materialize_query_runs env s b :
  materialize (self s) = true →
  materialize_table_name (self s) ≠ "" →
  backend (base (self s)) = Some b →
  let name := materialize_table_name (self s) in
  let drop := "DROP TABLE IF EXISTS " +:+ name in
  let create := "CREATE TABLE " +:+ name +:+ " AS " +:+ sql (self s) in
  let analyze := "ANALYZE " +:+ name in
  let aborted issued msg :=
    (Return None,
     MkSt (set_base (set_Error_connection (Some msg) (base (self s))) (self s))
          (trace s ++ map ExecuteSql issued)) in
  materialize_query env s
  = match execute_sql_query env drop, execute_sql_query env create,
          execute_sql_query env analyze with
    | Some msg, _, _ => aborted [drop] msg
    | None, Some msg, _ => aborted [drop; create] msg
    | None, None, Some msg => aborted [drop; create; analyze] msg
    | None, None, None =>
        (Next tt, MkSt (self s) (trace s ++ map ExecuteSql [drop; create; analyze]))
    end.
Proof.
  intros Hm Hn Hb. destruct s as [w tr]. simpl in *.
  unfold materialize_query, try_except_BackendError,
    backend_execute_sql_query, Error_connection_show, modify_base,
    mbind, M_bind, get, modify, emit, raise, return_, mret, M_ret.
  simpl. rewrite Hm.
  destruct (String.eqb_spec (materialize_table_name w) "") as [|_]; [done|].
  simpl. rewrite Hb. simpl.
  destruct (execute_sql_query env _) as [msg|]; simpl; [done|].
  rewrite Hb. simpl.
  destruct (execute_sql_query env _) as [msg|]; simpl.
  { by rewrite <- app_assoc. }
  rewrite Hb. simpl.
  destruct (execute_sql_query env _) as [msg|]; simpl;
    by rewrite <- !app_assoc.
Qed.

(** [get_table] on a custom query, by what [materialize_query] does. *)
Lemma get_table_custom env s :
  custom_selected (self s) = true →
  let s1 := MkSt (set_table (Some "Custom SQL")
                    (set_sql (sqltext (self s)) (self s))) (trace s) in
  get_table env s
  = match materialize_query env s1 with
    | (Next _, s2) => (open_relation env (sqltext (self s)) ≫= ingest env) s2
    | (Return r, s2) => (Return r, s2)
    | (Raise e, s2) => (Raise e, s2)
    end.
Proof.
  intros Hc s1. unfold get_table.
  change (resolve_source env ≫= _)
    with (λ s0 : @St Row Domain,
            match resolve_source env s0 with
            | (Next a, s') =>
                (open_relation env a ≫= λ t, ingest env t) s'
            | (Return r, s') => (Return r, s')
            | (Raise e, s') => (Raise e, s')
            end).
  simpl. rewrite (resolve_source_custom env s Hc). fold s1.
  unfold mbind at 1, M_bind at 1.
  by destruct (materialize_query env s1) as [[[]|r|e] s2].
Qed.

(** C4. Resolving a custom query with materialize set and an empty table
    name fails with the message asking for a table name, before any call
    to the backend, and [get_table] returns no data. *)
Theorem materialize_needs_table_name env s :
  custom_selected (self s) = true →
  materialize (self s) = true →
  materialize_table_name (self s) = "" →
  fst (get_table env s) = Return None
  ∧ trace (snd (get_table env s)) = trace s
  ∧ Error_connection (base (self (snd (get_table env s))))
    = Some "Specify a table name to materialize the query".
Proof.
  intros Hc Hm Hn. rewrite (get_table_custom env s Hc).
  destruct s as [w tr]. simpl in *.
  unfold materialize_query, Error_connection_show, modify_base,
    mbind, M_bind, get, modify, return_.
  simpl. by rewrite Hm, Hn.
Qed.

(** [get_table] on a custom query to materialize, by what the backend
    answers to the three statements. *)
Lemma get_table_materialize env s b :
  custom_selected (self s) = true →
  materialize (self s) = true →
  materialize_table_name (self s) ≠ "" →
  backend (base (self s)) = Some b →
  let name := materialize_table_name (self s) in
  let drop := "DROP TABLE IF EXISTS " +:+ name in
  let create := "CREATE TABLE " +:+ name +:+ " AS " +:+ sqltext (self s) in
  let analyze := "ANALYZE " +:+ name in
  let w1 := set_table (Some "Custom SQL") (set_sql (sqltext (self s)) (self s)) in
  let aborted issued msg :=
    (Return None,
     MkSt (set_base (set_Error_connection (Some msg) (base w1)) w1)
          (trace s ++ map ExecuteSql issued)) in
  get_table env s
  = match execute_sql_query env drop, execute_sql_query env create,
          execute_sql_query env analyze with
    | Some msg, _, _ => aborted [drop] msg
    | None, Some msg, _ => aborted [drop; create] msg
    | None, None, Some msg => aborted [drop; create; analyze] msg
    | None, None, None =>
        (open_relation env (sqltext (self s)) ≫= ingest env)
          (MkSt w1 (trace s ++ map ExecuteSql [drop; create; analyze]))
    end.
Proof.
  intros Hc Hm Hn Hb. cbv zeta.
  rewrite (get_table_custom env s Hc). cbv zeta.
  pose proof (materialize_query_runs env
    (MkSt (set_table (Some "Custom SQL") (set_sql (sqltext (self s)) (self s)))
          (trace s)) b Hm Hn Hb) as Hq.
  cbv zeta in Hq. rewrite Hq. clear Hq.
  destruct s as [w tr]. simpl.
  by repeat destruct (execute_sql_query env _) as [?|].
Qed.

(** C3. Resolving a custom query with materialize set and a table name
    runs DROP TABLE IF EXISTS, CREATE TABLE AS and ANALYZE on the
    backend, in this order. The first statement to fail is the last one
    issued: [get_table] returns no data, shows the message of the
    [BackendError], and issues nothing after it, so what ran before stays.
    When none fails, these three are all the statements issued. *)
Theorem materialize_issues_three_statements env s b :
  custom_selected (self s) = true →
  materialize (self s) = true →
  materialize_table_name (self s) ≠ "" →
  backend (base (self s)) = Some b →
  let name := materialize_table_name (self s) in
  let drop := "DROP TABLE IF EXISTS " +:+ name in
  let create := "CREATE TABLE " +:+ name +:+ " AS " +:+ sqltext (self s) in
  let analyze := "ANALYZE " +:+ name in
  let run := get_table env s in
  let aborted issued msg :=
    fst run = Return None
    ∧ trace (snd run) = trace s ++ map ExecuteSql issued
    ∧ Error_connection (base (self (snd run))) = Some msg in
  match execute_sql_query env drop, execute_sql_query env create,
        execute_sql_query env analyze with
  | Some msg, _, _ => aborted [drop] msg
  | None, Some msg, _ => aborted [drop; create] msg
  | None, None, Some msg => aborted [drop; create; analyze] msg
  | None, None, None =>
      ∃ rest,
        trace (snd run)
        = trace s ++ map ExecuteSql [drop; create; analyze] ++ rest
        ∧ forallb (λ e, negb (is_statement e)) rest = true
  end.
Proof.
  intros Hc Hm Hn Hb. cbv zeta.
  rewrite (get_table_materialize env s b Hc Hm Hn Hb).
  destruct (execute_sql_query env _) as [msg|]; [done|].
  destruct (execute_sql_query env _) as [msg|]; [done|].
  destruct (execute_sql_query env _) as [msg|]; [done|].
  edestruct (open_and_ingest_trace env (sqltext (self s))) as (rest & -> & Hrest).
  simpl. exists (OpenSqlTable (sqltext (self s)) :: rest).
  rewrite <- app_assoc. split; [done|]. simpl.
  eapply forallb_weaken; [|exact Hrest]. by intros [].
Qed.

(** C2. When a custom query has been materialized, the relation is
    opened on the text of the query, as it is when the query is not
    materialized: [resolve_source] answers the text either way, and the
    one relation [get_table] opens is opened on it. *)
Theorem materialized_query_opened_on_sql_text env s b :
  custom_selected (self s) = true →
  materialize (self s) = true →
  materialize_table_name (self s) ≠ "" →
  backend (base (self s)) = Some b →
  let statements :=
    materialize_statements (materialize_table_name (self s)) (sqltext (self s)) in
  (∀ statement, statement ∈ statements → execute_sql_query env statement = None) →
  let plain := MkSt (set_materialize false (self s)) (trace s) in
  fst (resolve_source env s) = Next (sqltext (self s))
  ∧ fst (resolve_source env plain) = Next (sqltext (self s))
  ∧ (∃ rest,
       trace (snd (get_table env s))
       = trace s ++ map ExecuteSql statements
         ++ OpenSqlTable (sqltext (self s)) :: rest
       ∧ forallb (λ e, negb (is_query e)) rest = true)
  ∧ (∃ rest,
       trace (snd (get_table env plain))
       = trace s ++ OpenSqlTable (sqltext (self s)) :: rest
       ∧ forallb (λ e, negb (is_query e)) rest = true).
Proof.
  intros Hc Hm Hn Hb statements Hex plain.
  assert (execute_sql_query env
            ("DROP TABLE IF EXISTS " +:+ materialize_table_name (self s)) = None
          ∧ execute_sql_query env
              ("CREATE TABLE " +:+ materialize_table_name (self s)
               +:+ " AS " +:+ sqltext (self s)) = None
          ∧ execute_sql_query env
              ("ANALYZE " +:+ materialize_table_name (self s)) = None)
    as (H1 & H2 & H3).
  { repeat split; apply Hex; unfold statements, materialize_statements;
      repeat constructor. }
  assert (materialize_query env plain = (Next tt, plain)) as Hplain by done.
  split; [|split; [|split]].
  - rewrite (resolve_source_custom env s Hc).
    pose proof (materialize_query_runs env
      (MkSt (set_table (Some "Custom SQL") (set_sql (sqltext (self s)) (self s)))
            (trace s)) b Hm Hn Hb) as Hq.
    cbv zeta in Hq. unfold mbind, M_bind. rewrite Hq. simpl.
    by rewrite H1, H2, H3.
  - by rewrite (resolve_source_custom env plain Hc).
  - pose proof (get_table_materialize env s b Hc Hm Hn Hb) as Hq.
    cbv zeta in Hq. rewrite Hq, H1, H2, H3.
    edestruct (open_and_ingest_trace env (sqltext (self s)))
      as (rest & -> & Hrest).
    exists rest. simpl. by rewrite <- app_assoc.
  - rewrite (get_table_custom env plain Hc). cbv zeta.
    edestruct (open_and_ingest_trace env (sqltext (self s)))
      as (rest & Ht & Hrest).
    exists rest. split; [|done]. simpl. exact Ht.
Qed.

(** C1. With download enabled, [get_table] returns no data, or a local
    table of at most MAX_DL_LIMIT = 1,000,000 rows, whatever the prompts
    answer; it never returns the remote table. *)
Theorem download_within_MAX_DL_LIMIT env s :
  download (self s) = true →
  match fst (get_table env s) with
  | Next (Local X _) => Z.of_nat (length X) ≤ 1000000
  | Next (Remote _) => False
  | Return (Some _) => False
  | Return None | Raise _ => True
  end.
Proof. apply get_table_within_limit. Qed.

(** C8. On a backend that is not PostgreSQL, with download enabled, a
    relation whose estimated length exceeds MAX_DL_LIMIT and the automatic
    download limit (the test of line 385, around the refusal) is refused:
    [ingest] shows the warning and returns no data, without raising and
    without asking for a decision on the download. The events before the
    warning are those of attribute discovery; they hold a prompt, the one
    on discovery, exactly when discovery is enabled and the table is
    large. *)
Theorem too_big_refused_without_download_prompt env s t :
  is_postgres (backend (base (self s))) = false →
  download (self s) = true →
  MAX_DL_LIMIT < approx_len t →
  AUTO_DL_LIMIT env < approx_len t →
  let asked := (LARGE_TABLE env <? approx_len t) && guess_values (self s) in
  let declined :=
    asked && clicked_is (discovery_clicked env [YesButton; NoButton]) NoButton in
  let discovery :=
    (if asked then [DiscoveryPrompt [YesButton; NoButton]] else [])
    ++ (if guess_values (self s) && negb declined then [GetDomain] else []) in
  fst (ingest env t s) = Return None
  ∧ trace (snd (ingest env t s)) = trace s ++ discovery ++ [TooBigWarning]
  ∧ forallb (λ e, negb (is_download_decision e)) (discovery ++ [TooBigWarning])
    = true
  ∧ forallb (λ e, negb (is_decision e)) (discovery ++ [TooBigWarning])
    = negb asked.
Proof.
  intros Hp Hd Hmax Hauto.
  assert ((AUTO_DL_LIMIT env <? approx_len t) = true) as Ha
    by by apply Z.ltb_lt.
  assert ((MAX_DL_LIMIT <? approx_len t) = true) as Hm by by apply Z.ltb_lt.
  destruct s as [w tr]. simpl in *.
  unfold ingest, Error_connection_clear, discovery_decision, discover,
    download_or_not, download_decision, modify_base,
    mbind, M_bind, get, modify, emit, return_, mret, M_ret.
  simpl. rewrite Hp.
  destruct (LARGE_TABLE env <? approx_len t); simpl;
    destruct (guess_values w) eqn:Hg; simpl;
    try destruct (clicked_is _ NoButton); simpl;
    repeat (progress (simpl; rewrite ?Hg, ?Hd, ?Ha, ?Hp, ?Hm));
    rewrite <- ?app_assoc; done.
Qed.

(** *** The forced download *)

Lemma forced_on_connection_success env before :
  keeps (stable (λ _, true) true false before) (on_connection_success env).
Proof.
  unfold on_connection_success.
  pose proof (stable_refresh_tables env true false before).
  pose proof (stable_select_table env true false before).
  unfold modify_base. keeps_auto.
Qed.

Lemma forced_perform env before a :
  is_Cleared a = false →
  keeps (stable (λ _, true) true false before) (perform env a).
Proof.
  pose proof (forced_on_connection_success env before).
  pose proof (stable_open_table env true false before).
  pose proof (stable_select_table env true false before).
  destruct a; try done; intros _; unfold perform, modify_base;
    try by keeps_auto.
  intros s Hs. unfold mbind, M_bind, get. simpl.
  destruct Hs as (Hd & Hc & Ht). by rewrite Hc.
Qed.

Lemma forced_after env before actions s :
  forallb (λ a, negb (is_Cleared a)) actions = true →
  stable (λ _, true) true false before s →
  stable (λ _, true) true false before (after env actions s).
Proof.
  revert s. induction actions as [|a actions IH]; intros s; simpl; [done|].
  intros [Ha Hactions]%andb_true_iff Hs. apply negb_true_iff in Ha.
  apply (IH _ Hactions). by apply forced_perform.
Qed.

(** The first statements of [on_connection_success] force the download
    when the backend is not PostgreSQL or misses an extension. *)
Lemma on_connection_success_forces env s b :
  backend (base (self s)) = Some b →
  is_postgres (Some b) = false ∨ missing_extension b ≠ [] →
  stable (λ _, true) true false (trace s) (snd (on_connection_success env s)).
Proof.
  intros Hb Hforce. unfold on_connection_success.
  set (rest := (modify_base (super_on_connection_success env);; _)).
  assert (keeps (stable (λ _, true) true false (trace s)) rest) as Hrest.
  { unfold rest, modify_base.
    pose proof (stable_refresh_tables env true false (trace s)).
    pose proof (stable_select_table env true false (trace s)).
    keeps_auto. }
  destruct s as [w tr]. simpl in *.
  unfold mbind, M_bind, get, modify, mret, M_ret. simpl. rewrite Hb. simpl.
  destruct (missing_extension b) as [|x missing] eqn:Hmiss; simpl.
  - destruct Hforce as [Hpg|]; [|done]. simpl in Hpg. rewrite Hpg. simpl.
    apply Hrest. by apply (stable_initially _ _ _ (MkSt _ tr)).
  - destruct (String.eqb (display_name b) "PostgreSQL"); simpl;
      apply Hrest; by apply (stable_initially _ _ _ (MkSt _ tr)).
Qed.

(** C10. After [on_connection_success] on a backend that is not
    PostgreSQL, or that misses an extension, the download option is on
    and its check box disabled; both stay so whatever happens to the
    widget short of [clear], so that [get_table] never returns the remote
    table; [clear] enables the check box again. *)
Theorem forced_download_until_cleared env s b actions :
  backend (base (self s)) = Some b →
  is_postgres (Some b) = false ∨ missing_extension b ≠ [] →
  forallb (λ a, negb (is_Cleared a)) actions = true →
  let connected := snd (on_connection_success env s) in
  let later := after env actions connected in
  (download (self connected) = true
   ∧ downloadcb_enabled (self connected) = false)
  ∧ (download (self later) = true ∧ downloadcb_enabled (self later) = false)
  ∧ match fst (get_table env later) with
    | Next (Remote _) | Return (Some _) => False
    | _ => True
    end
  ∧ downloadcb_enabled (self (snd (clear env later))) = true.
Proof.
  intros Hb Hforce Hactions connected later.
  pose proof (on_connection_success_forces env s b Hb Hforce) as Hc.
  fold connected in Hc.
  pose proof (forced_after env _ actions connected Hactions Hc) as Hl.
  fold later in Hl.
  destruct Hc as (Hc1 & Hc2 & _). destruct Hl as (Hl1 & Hl2 & _).
  repeat split; try done.
  pose proof (get_table_within_limit env later Hl1) as Hw.
  by destruct (fst (get_table env later)) as [[]|[]|].
Qed.

End WidgetProperties.

(** ** The claims on the widget, at the example session *)

(** A small relation downloaded from PostgreSQL. *)
Lemma download_within_MAX_DL_LIMIT_witness :
  let s := Example.start (Example.widget Example.PostgreSQL true false "") in
  download (self s) = true
  ∧ match fst (get_table Example.quiet s) with
    | Next (Local X _) => Z.of_nat (length X) ≤ 1000000
    | Next (Remote _) => False
    | Return (Some _) => False
    | Return None | Raise _ => True
    end.
Proof.
  split; [reflexivity|].
  exact (download_within_MAX_DL_LIMIT Example.quiet
           (Example.start (Example.widget Example.PostgreSQL true false ""))
           eq_refl).
Defined.

(** The query [SELECT 1] materialized to the table t1. *)
Lemma materialized_query_opened_on_sql_text_witness :
  let s := Example.start (Example.widget Example.PostgreSQL true true "t1") in
  let plain := MkSt (set_materialize false (self s)) (trace s) in
  let statements := materialize_statements "t1" "SELECT 1" in
  (custom_selected (self s) = true ∧ materialize (self s) = true)
  ∧ fst (resolve_source Example.quiet s) = Next "SELECT 1"
  ∧ fst (resolve_source Example.quiet plain) = Next "SELECT 1"
  ∧ (∃ rest,
       trace (snd (get_table Example.quiet s))
       = trace s ++ map ExecuteSql statements ++ OpenSqlTable "SELECT 1" :: rest
       ∧ forallb (λ e, negb (is_query e)) rest = true)
  ∧ (∃ rest,
       trace (snd (get_table Example.quiet plain))
       = trace s ++ OpenSqlTable "SELECT 1" :: rest
       ∧ forallb (λ e, negb (is_query e)) rest = true).
Proof.
  split; [by split|].
  exact (materialized_query_opened_on_sql_text Example.quiet
           (Example.start (Example.widget Example.PostgreSQL true true "t1"))
           Example.PostgreSQL eq_refl eq_refl ltac:(discriminate) eq_refl
           (λ _ _, eq_refl)).
Defined.

(** The same, on a backend that refuses to create the table. *)
Lemma materialize_issues_three_statements_witness :
  let env := Example.env Example.create_fails 150 None None Yes in
  let s := Example.start (Example.widget Example.PostgreSQL true true "t1") in
  (custom_selected (self s) = true ∧ materialize (self s) = true)
  ∧ fst (get_table env s) = Return None
  ∧ trace (snd (get_table env s))
    = [ExecuteSql "DROP TABLE IF EXISTS t1";
       ExecuteSql "CREATE TABLE t1 AS SELECT 1"]
  ∧ Error_connection (base (self (snd (get_table env s))))
    = Some "permission denied".
Proof.
  split; [by split|].
  exact (materialize_issues_three_statements
           (Example.env Example.create_fails 150 None None Yes)
           (Example.start (Example.widget Example.PostgreSQL true true "t1"))
           Example.PostgreSQL eq_refl eq_refl ltac:(discriminate) eq_refl).
Defined.

(** The same, with no table name given. *)
Lemma materialize_needs_table_name_witness :
  let s := Example.start (Example.widget Example.PostgreSQL true true "") in
  (custom_selected (self s) = true ∧ materialize (self s) = true
   ∧ materialize_table_name (self s) = "")
  ∧ fst (get_table Example.quiet s) = Return None
  ∧ trace (snd (get_table Example.quiet s)) = trace s
  ∧ Error_connection (base (self (snd (get_table Example.quiet s))))
    = Some "Specify a table name to materialize the query".
Proof.
  split; [by repeat split|].
  exact (materialize_needs_table_name Example.quiet
           (Example.start (Example.widget Example.PostgreSQL true true ""))
           eq_refl eq_refl eq_refl).
Defined.

(** Two million rows on SQLite, with discovery enabled. *)
Lemma too_big_refused_without_download_prompt_witness :
  let env := Example.env (λ _, None) 2000000 None None Yes in
  let s := Example.start (Example.widget Example.SQLite true false "") in
  let t := Example.relation 2000000 in
  (is_postgres (backend (base (self s))) = false ∧ download (self s) = true
   ∧ MAX_DL_LIMIT < approx_len t ∧ AUTO_DL_LIMIT env < approx_len t)
  ∧ fst (ingest env t s) = Return None
  ∧ trace (snd (ingest env t s))
    = [DiscoveryPrompt [YesButton; NoButton]; GetDomain; TooBigWarning]
  ∧ forallb (λ e, negb (is_download_decision e))
      [DiscoveryPrompt [YesButton; NoButton]; GetDomain; TooBigWarning]
    = true
  ∧ forallb (λ e, negb (is_decision e))
      [DiscoveryPrompt [YesButton; NoButton]; GetDomain; TooBigWarning]
    = false.
Proof.
  split; [by repeat split|].
  exact (too_big_refused_without_download_prompt
           (Example.env (λ _, None) 2000000 None None Yes)
           (Example.start (Example.widget Example.SQLite true false ""))
           (Example.relation 2000000) eq_refl eq_refl eq_refl eq_refl).
Defined.

(** The same relation, with a user who answers Yes: the refusal comes
    after the prompt on attribute discovery, so that a decision has been
    asked for when the warning is shown. *)
Lemma too_big_refusal_follows_discovery_prompt :
  let env :=
    Example.env (λ _, None) 2000000 (Some YesButton) (Some YesButton) Yes in
  let s := Example.start (Example.widget Example.SQLite true false "") in
  let t := Example.relation 2000000 in
  (is_postgres (backend (base (self s))) = false ∧ download (self s) = true
   ∧ MAX_DL_LIMIT < approx_len t)
  ∧ fst (ingest env t s) = Return None
  ∧ trace (snd (ingest env t s))
    = [DiscoveryPrompt [YesButton; NoButton]; GetDomain; TooBigWarning]
  ∧ existsb is_decision (trace (snd (ingest env t s))) = true.
Proof. by repeat split. Qed.

(** A connection to SQLite, then a click on the disabled check box, an
    edit of the query, the choice of a table, and the Execute button. *)
Lemma forced_download_until_cleared_witness :
  let s := Example.start (Example.widget Example.SQLite false false "") in
  let actions := [ClickDownload; EditSql "SELECT 2"; ActivateTable 2; ClickExecute] in
  let connected := snd (on_connection_success Example.quiet s) in
  let later := after Example.quiet actions connected in
  is_postgres (Some Example.SQLite) = false
  ∧ (download (self connected) = true
     ∧ downloadcb_enabled (self connected) = false)
  ∧ (download (self later) = true ∧ downloadcb_enabled (self later) = false)
  ∧ match fst (get_table Example.quiet later) with
    | Next (Remote _) | Return (Some _) => False
    | _ => True
    end
  ∧ downloadcb_enabled (self (snd (clear Example.quiet later))) = true.
Proof.
  split; [reflexivity|].
  exact (forced_download_until_cleared Example.quiet
           (Example.start (Example.widget Example.SQLite false false ""))
           Example.SQLite
           [ClickDownload; EditSql "SELECT 2"; ActivateTable 2; ClickExecute]
           eq_refl (or_introl eq_refl) eq_refl).
Defined.

(** * Further properties *)

(** ** The parser *)

Lemma is_comment_step (st : Parser.state) (line : string) :
  Lines.is_comment line = true → Parser.step st line = st.
Proof.
  unfold Lines.is_comment, Parser.step.
  intros [Hi Hn]%andb_true_iff.
  destruct (Re.name_pattern line); [done|]. by rewrite Hi.
Qed.

(** X1. Comment lines that name no query do not count: the parser ends in
    the same state with them and without them, wherever they stand. *)
Theorem comments_are_transparent (st : Parser.state) (lines : list string) :
  Parser.run st lines
  = Parser.run st (List.filter (λ l, negb (Lines.is_comment l)) lines).
Proof.
  revert st. induction lines as [|line lines IH]; intros st; simpl; [done|].
  destruct (Lines.is_comment line) eqn:E; simpl.
  - rewrite (is_comment_step st line E). apply IH.
  - apply IH.
Qed.

Lemma name_pattern_is_comment_line (line n : string) :
  Re.name_pattern line = Some n → Re.ignore_line line = true.
Proof.
  unfold Re.name_pattern, Re.ignore_line.
  destruct (Py.startswith line "-- name:") eqn:E; [|done]. intros _.
  apply startswith_cons in E as (s1 & -> & E).
  apply startswith_cons in E as (s2 & -> & E). by destruct s2.
Qed.

Lemma continues_no_name (line : string) :
  Lines.continues line = true →
  Re.name_pattern line = None ∧ Re.ignore_line line = false
  ∧ Re.stop_query line = false.
Proof.
  unfold Lines.continues.
  intros [Hi Hs]%andb_true_iff. apply negb_true_iff in Hi, Hs.
  repeat split; try done.
  destruct (Re.name_pattern line) as [n|] eqn:E; [|done].
  apply name_pattern_is_comment_line in E. congruence.
Qed.

(** While a query is read, every line that continues it joins the
    buffer. *)
Lemma run_continues (sel : Dict.t) (n : string) (q middles : list string) :
  q ≠ [] →
  Forall (λ l, Lines.continues l = true) middles →
  Parser.run (Parser.State sel (Some n) q) middles
  = Parser.State sel (Some n) (q ++ middles).
Proof.
  intros Hq Hm. revert q Hq.
  induction Hm as [|line middles Hline _ IH]; intros q Hq; simpl.
  { by rewrite app_nil_r. }
  destruct (continues_no_name line Hline) as (Hn & Hi & Hs).
  assert (Parser.step (Parser.State sel (Some n) q) line
          = Parser.State sel (Some n) (q ++ [line])) as ->.
  { unfold Parser.step, Parser.accumulate. rewrite Hn, Hi, Hs. simpl.
    rewrite andb_false_r, andb_true_r. simpl.
    destruct (Re.start_query line); [done|]. by destruct q. }
  rewrite IH, <- app_assoc; [done|]. by destruct q.
Qed.

(** X2. A query over several lines: after a name line, a line that begins
    with SELECT or select opens the query, the lines that follow join it,
    and the line that ends with a semicolon closes it. The query is stored
    under the normalized name as the lines, each cut at its comment, joined
    by single spaces; the name and the buffer are reset. *)
Theorem multi_line_query_stored
    (st : Parser.state) (name_line n first last : string)
    (middles : list string) :
  Parser.query st = [] →
  Re.name_pattern name_line = Some n →
  Re.start_query name_line = false →
  Re.stop_query name_line = false →
  Parser.begins_with_select first = true →
  Re.stop_query first = false →
  Forall (λ l, Lines.continues l = true) middles →
  Re.ignore_line last = false →
  Re.start_query last = false →
  Re.stop_query last = true →
  Parser.run st (name_line :: first :: middles ++ [last])
  = Parser.State
      (Dict.set (Parser.trn (Some n))
         (Py.join " "
            (map Parser.delete_comments (first :: middles ++ [last])))
         (Parser.selects st))
      None [].
Proof.
  intros Hq Hname Hns Hne Hfirst Hfs Hmiddles Hli Hls Hle.
  destruct (begins_with_select_not_comment first Hfirst) as [Hfn Hfi].
  apply begins_with_select_start_query in Hfirst.
  destruct st as [sel nm q]. simpl in Hq. subst q. simpl.
  assert (Parser.step (Parser.State sel nm []) name_line
          = Parser.State sel (Some n) []) as ->.
  { unfold Parser.step, Parser.accumulate. by rewrite Hname, Hns, Hne. }
  assert (Parser.step (Parser.State sel (Some n) []) first
          = Parser.State sel (Some n) [first]) as ->.
  { unfold Parser.step, Parser.accumulate. by rewrite Hfn, Hfi, Hfirst, Hfs. }
  rewrite run_app, (run_continues sel n [first] middles) by done. simpl.
  assert (Re.name_pattern last = None) as Hln.
  { destruct (Re.name_pattern last) eqn:E; [|done].
    apply name_pattern_is_comment_line in E. congruence. }
  unfold Parser.step, Parser.accumulate. by rewrite Hln, Hli, Hls, Hle.
Qed.

(** *** Strings *)

Lemma app_String (c : ascii) (a b : string) :
  String c a +:+ b = String c (a +:+ b).
Proof. reflexivity. Qed.

Lemma app_empty_r (a : string) : a +:+ "" = a.
Proof. induction a as [|c a IH]; [done|]. by rewrite app_String, IH. Qed.

Lemma app_assoc_string (a b c : string) : (a +:+ b) +:+ c = a +:+ (b +:+ c).
Proof. induction a as [|x a IH]; [done|]. by rewrite !app_String, IH. Qed.

Lemma rev_app_app (a b : string) :
  String.rev_app a b = String.rev a +:+ b.
Proof.
  unfold String.rev. revert b.
  induction a as [|c a IH]; intros b; simpl; [done|].
  by rewrite (IH (String c b)), (IH (String c "")), app_assoc_string.
Qed.

Lemma rev_String (c : ascii) (a : string) :
  String.rev (String c a) = String.rev a +:+ String c "".
Proof. unfold String.rev at 1. simpl. apply rev_app_app. Qed.

Lemma rev_append (a b : string) :
  String.rev (a +:+ b) = String.rev b +:+ String.rev a.
Proof.
  induction a as [|c a IH].
  - by rewrite app_empty_r.
  - by rewrite app_String, !rev_String, IH, app_assoc_string.
Qed.

Lemma rev_involutive (a : string) : String.rev (String.rev a) = a.
Proof.
  induction a as [|c a IH]; [done|].
  by rewrite rev_String, rev_append, IH.
Qed.

Lemma upper_char_idempotent (c : ascii) :
  Py.upper_char (Py.upper_char c) = Py.upper_char c.
Proof. by destruct c as [[] [] [] [] [] [] [] []]. Qed.

Lemma isspace_upper_char (c : ascii) :
  Py.isspace (Py.upper_char c) = Py.isspace c.
Proof. by destruct c as [[] [] [] [] [] [] [] []]. Qed.

Lemma upper_idempotent (s : string) : Py.upper (Py.upper s) = Py.upper s.
Proof.
  induction s as [|c s IH]; simpl; [done|].
  by rewrite upper_char_idempotent, IH.
Qed.

Lemma upper_append (a b : string) :
  Py.upper (a +:+ b) = Py.upper a +:+ Py.upper b.
Proof.
  induction a as [|c a IH]; [done|].
  rewrite app_String. simpl. by rewrite IH.
Qed.

Lemma upper_rev (s : string) : Py.upper (String.rev s) = String.rev (Py.upper s).
Proof.
  induction s as [|c s IH]; [done|].
  simpl. by rewrite !rev_String, upper_append, IH.
Qed.

Lemma lstrip_upper (s : string) : Py.lstrip (Py.upper s) = Py.upper (Py.lstrip s).
Proof.
  induction s as [|c s IH]; simpl; [done|].
  rewrite isspace_upper_char. by destruct (Py.isspace c).
Qed.

Lemma strip_upper (s : string) : Py.strip (Py.upper s) = Py.upper (Py.strip s).
Proof.
  unfold Py.strip, Py.rstrip.
  by rewrite lstrip_upper, <- upper_rev, lstrip_upper, upper_rev.
Qed.

Lemma lstrip_clean_head (s : string) : Lines.clean_head (Py.lstrip s).
Proof.
  induction s as [|c s IH]; simpl; [done|].
  by destruct (Py.isspace c) eqn:E.
Qed.

Lemma lstrip_clean (s : string) : Lines.clean_head s → Py.lstrip s = s.
Proof. destruct s as [|c s]; simpl; [done|]. by intros ->. Qed.

(** [lstrip] cuts a prefix, [rstrip] a suffix. *)
Lemma lstrip_cuts (s : string) : ∃ p, s = p +:+ Py.lstrip s.
Proof.
  induction s as [|c s [p IH]]; simpl.
  - by exists "".
  - destruct (Py.isspace c).
    + exists (String c p). by rewrite app_String, <- IH.
    + by exists "".
Qed.

Lemma rstrip_cuts (s : string) : ∃ r, s = Py.rstrip s +:+ r.
Proof.
  unfold Py.rstrip. destruct (lstrip_cuts (String.rev s)) as [p Hp].
  exists (String.rev p).
  by rewrite <- rev_append, <- Hp, rev_involutive.
Qed.

Lemma rstrip_clean_head (s : string) : Lines.clean_head s → Lines.clean_head (Py.rstrip s).
Proof.
  intros Hs. destruct (rstrip_cuts s) as [r Hr].
  destruct (Py.rstrip s) as [|c t]; [done|].
  rewrite Hr in Hs. by rewrite app_String in Hs.
Qed.

Lemma strip_idempotent (s : string) : Py.strip (Py.strip s) = Py.strip s.
Proof.
  unfold Py.strip.
  rewrite (lstrip_clean (Py.rstrip (Py.lstrip s)))
    by apply rstrip_clean_head, lstrip_clean_head.
  unfold Py.rstrip at 1 2. rewrite rev_involutive.
  by rewrite (lstrip_clean (Py.lstrip _)) by apply lstrip_clean_head.
Qed.

Lemma trn_normalized (x : option string) : Lines.normalized (Parser.trn x).
Proof.
  unfold Lines.normalized, Parser.trn. split.
  - apply upper_idempotent.
  - by rewrite strip_upper, strip_idempotent.
Qed.

(** *** The keys of the mapping *)

Lemma keys_set_Forall (P : string → Prop) (k v : string) (d : Dict.t) :
  P k → Forall P (Dict.keys d) → Forall P (Dict.keys (Dict.set k v d)).
Proof.
  intros Hk. unfold Dict.keys.
  induction d as [|[k' v'] d IH]; simpl; intros Hd.
  - by constructor.
  - inversion Hd as [|? ? Hk' Hd']; subst.
    destruct (String.eqb k' k); simpl; constructor; auto.
Qed.

Lemma accumulate_keys_Forall (P : string → Prop) (st : Parser.state)
    (line : string) :
  (Parser.name st ≠ None → P (Parser.trn (Parser.name st))) →
  Forall P (Dict.keys (Parser.selects st)) →
  Forall P (Dict.keys (Parser.selects (Parser.accumulate st line))).
Proof.
  intros Hname Hkeys. unfold Parser.accumulate.
  destruct (Parser.name st) as [n|]; simpl.
  - repeat case_match; simpl; auto using keys_set_Forall.
  - rewrite !andb_false_r. by repeat case_match.
Qed.

Lemma step_keys_Forall (P : string → Prop) (st : Parser.state) (line : string) :
  (∀ x, P (Parser.trn x)) →
  Forall P (Dict.keys (Parser.selects st)) →
  Forall P (Dict.keys (Parser.selects (Parser.step st line))).
Proof.
  intros HP Hkeys. unfold Parser.step.
  repeat case_match; try done;
    apply accumulate_keys_Forall; simpl; auto using keys_set_Forall.
Qed.

(** X3. Every key of the parsed mapping is normalized: it is in upper case
    and has no space at either end, so it is the key [trn] gives for
    itself. *)
Theorem parsed_keys_normalized (text : string) :
  Forall (λ k, Lines.normalized k ∧ Parser.trn (Some k) = k)
    (Dict.keys (Parser.parse text)).
Proof.
  assert (∀ x, Lines.normalized (Parser.trn x)
               ∧ Parser.trn (Some (Parser.trn x)) = Parser.trn x) as Htrn.
  { intros x. split; [apply trn_normalized|].
    destruct (trn_normalized x) as [Hu Hs].
    unfold Parser.trn at 1. simpl. by rewrite Hs, Hu. }
  unfold Parser.parse.
  assert (∀ lines st,
            Forall (λ k, Lines.normalized k ∧ Parser.trn (Some k) = k)
              (Dict.keys (Parser.selects st)) →
            Forall (λ k, Lines.normalized k ∧ Parser.trn (Some k) = k)
              (Dict.keys (Parser.selects (Parser.run st lines)))) as Hrun.
  { induction lines as [|line lines IH]; intros st Hst; simpl; [done|].
    apply IH, step_keys_Forall; auto. }
  apply Hrun. constructor.
Qed.

(** What a line does to a parser with no name pending and nothing being
    read, when it is no name line. *)
Lemma step_unnamed_selects (st : Parser.state) (line : string) :
  Re.name_pattern line = None →
  Parser.name st = None → Parser.query st = [] →
  Parser.selects (Parser.step st line)
  = if Lines.one_line line then Dict.set "NONE" line (Parser.selects st)
    else Parser.selects st.
Proof.
  intros Hline Hn Hq. unfold Parser.step, Parser.accumulate, Lines.one_line.
  rewrite Hline, Hn, Hq. simpl. rewrite ?andb_false_r.
  destruct (Re.ignore_line line); simpl; [done|].
  by destruct (Re.start_query line && Re.stop_query line).
Qed.

Lemma Dict_set_set (k v1 v2 : string) (d : Dict.t) :
  Dict.set k v2 (Dict.set k v1 d) = Dict.set k v2 d.
Proof.
  induction d as [|[k' v'] d IH]; simpl.
  - by rewrite String.eqb_refl.
  - destruct (String.eqb k' k) eqn:E; simpl.
    + by rewrite String.eqb_refl.
    + by rewrite E, IH.
Qed.

Lemma run_unnamed_selects (lines : list string) (st : Parser.state) :
  Forall (λ l, Re.name_pattern l = None) lines →
  Parser.name st = None → Parser.query st = [] →
  Parser.selects (Parser.run st lines)
  = match last (List.filter Lines.one_line lines) with
    | Some line => Dict.set "NONE" line (Parser.selects st)
    | None => Parser.selects st
    end.
Proof.
  intros Hlines. revert st.
  induction Hlines as [|line lines Hline _ IH]; intros st Hn Hq; simpl; [done|].
  destruct (step_unnamed st line Hline Hn Hq) as [Hn' Hq'].
  rewrite (IH _ Hn' Hq'), (step_unnamed_selects st line Hline Hn Hq).
  destruct (Lines.one_line line); [|done].
  destruct (List.filter Lines.one_line lines) as [|x rest] eqn:E; [done|].
  change (last (line :: x :: rest)) with (last (x :: rest)).
  destruct (last (x :: rest)) as [y|] eqn:El; [by rewrite Dict_set_set|].
  by apply last_None in El.
Qed.

(** X4. In a file without a name line nothing is read over several lines:
    after every line no name is pending and the buffer is empty. The
    mapping ends empty when the file has no one-line query, and otherwise
    with the single key NONE, on the last one-line query of the file as
    it was read. *)
Theorem unnamed_file_has_only_NONE (text : string) :
  Forall (λ l, Re.name_pattern l = None) (Py.readlines text) →
  (∀ n, let st := Parser.run Parser.initial (take n (Py.readlines text)) in
        Parser.name st = None ∧ Parser.query st = [])
  ∧ Parser.parse text
    = match last (List.filter Lines.one_line (Py.readlines text)) with
      | Some line => [("NONE", line)]
      | None => []
      end.
Proof.
  unfold Parser.parse. generalize (Py.readlines text). intros lines Hlines.
  split.
  - intros n. apply run_unnamed; [by apply Forall_take|done..].
  - by rewrite (run_unnamed_selects lines Parser.initial Hlines).
Qed.

(** *** Named queries of one line *)

(** A name line and a one-line query after it, with nothing being read. *)
Lemma named_one_line_block (st : Parser.state) (name_line n q : string) :
  Parser.query st = [] →
  Re.name_pattern name_line = Some n →
  Re.start_query name_line = false →
  Re.stop_query name_line = false →
  Parser.begins_with_select q = true →
  Re.stop_query q = true →
  Parser.run st [name_line; q]
  = Parser.State (Dict.set (Parser.trn (Some n)) q (Parser.selects st)) None [].
Proof.
  intros Hq Hname Hns Hne Hb Hs. destruct st as [sel nm b]. simpl in *.
  subst b.
  assert (Parser.step (Parser.State sel nm []) name_line
          = Parser.State sel (Some n) []) as ->.
  { unfold Parser.step, Parser.accumulate. by rewrite Hname, Hns, Hne. }
  by rewrite (step_one_line _ q Hb Hs).
Qed.

Lemma Dict_keys_set_present (k v : string) (d : Dict.t) :
  is_Some (Dict.get k d) → Dict.keys (Dict.set k v d) = Dict.keys d.
Proof.
  unfold Dict.keys. induction d as [|[k' v'] d IH]; simpl.
  - by intros [? ?].
  - destruct (String.eqb_spec k' k) as [->|]; simpl; [done|].
    intros H. by rewrite IH.
Qed.

(** X5. Two queries whose names differ only in case or outer spaces are
    one entry: the second replaces the text of the first, in the place the
    first took, and the mapping is the one the second alone would give. *)
Theorem same_name_last_wins
    (st : Parser.state) (name1 n1 q1 name2 n2 q2 : string) :
  Parser.query st = [] →
  Re.name_pattern name1 = Some n1 →
  Re.start_query name1 = false → Re.stop_query name1 = false →
  Parser.begins_with_select q1 = true → Re.stop_query q1 = true →
  Re.name_pattern name2 = Some n2 →
  Re.start_query name2 = false → Re.stop_query name2 = false →
  Parser.begins_with_select q2 = true → Re.stop_query q2 = true →
  Parser.trn (Some n1) = Parser.trn (Some n2) →
  let first := Parser.run st [name1; q1] in
  let both := Parser.run st [name1; q1; name2; q2] in
  Dict.get (Parser.trn (Some n1)) (Parser.selects both) = Some q2
  ∧ Dict.keys (Parser.selects both) = Dict.keys (Parser.selects first)
  ∧ both = Parser.run st [name2; q2].
Proof.
  intros Hq H1 H1s H1e Hb1 Hs1 H2 H2s H2e Hb2 Hs2 Hsame first both.
  assert (both = Parser.run first [name2; q2]) as Hboth by done.
  unfold first in *.
  rewrite (named_one_line_block st name1 n1 q1) in * by done.
  rewrite (named_one_line_block _ name2 n2 q2) in Hboth by done.
  rewrite (named_one_line_block st name2 n2 q2) by done.
  simpl in Hboth. rewrite <- Hsame in *. rewrite Hboth. simpl.
  repeat split.
  - apply Dict_get_set_eq.
  - apply Dict_keys_set_present. rewrite Dict_get_set_eq. eauto.
  - by rewrite Dict_set_set.
Qed.

(** *** Comments inside a query *)

Lemma prefix_substring (p s : string) (k : nat) :
  String.prefix p (String.substring 0 k s) = true → String.prefix p s = true.
Proof.
  revert s k. induction p as [|c p IH]; intros s k.
  - by destruct s.
  - destruct s as [|b s]; destruct k as [|k]; simpl; try done.
    destruct (ascii_dec c b); [|done]. apply IH.
Qed.

Lemma index_substring_None (p s : string) (k : nat) :
  p ≠ "" →
  String.index 0 p s = None →
  String.index 0 p (String.substring 0 k s) = None.
Proof.
  intros Hp. revert k. induction s as [|b s IH]; intros k.
  - destruct k; simpl; by destruct p.
  - cbn [String.index].
    destruct (String.prefix p (String b s)) eqn:E; [done|].
    destruct (String.index 0 p s) eqn:E'; [done|]. intros _.
    destruct k as [|k].
    + simpl. by destruct p.
    + cbn [String.substring String.index].
      destruct (String.prefix p (String b (String.substring 0 k s))) eqn:E2.
      { apply (prefix_substring p (String b s) (S k)) in E2. congruence. }
      by rewrite IH.
Qed.

Lemma index_substring_Some (p s : string) (i k : nat) :
  p ≠ "" →
  String.index 0 p s = Some i → (k ≤ i)%nat →
  String.index 0 p (String.substring 0 k s) = None.
Proof.
  intros Hp. revert i k. induction s as [|b s IH]; intros i k.
  - destruct k; simpl; by destruct p.
  - cbn [String.index].
    destruct (String.prefix p (String b s)) eqn:E.
    + intros [= <-] Hk. assert (k = 0%nat) as -> by lia. simpl. by destruct p.
    + destruct (String.index 0 p s) as [n|] eqn:E'; [|done].
      intros [= <-] Hk. destruct k as [|k].
      * simpl. by destruct p.
      * cbn [String.substring String.index].
        destruct (String.prefix p (String b (String.substring 0 k s))) eqn:E2.
        { apply (prefix_substring p (String b s) (S k)) in E2. congruence. }
        rewrite (IH n k); [done..|lia].
Qed.

(** X6. What [delete_comments] keeps of a line holds no comment marker:
    the line is cut at its first [--], and a line without one has none to
    begin with. *)
Theorem delete_comments_leaves_no_marker (line : string) :
  Py.contains (Parser.delete_comments line) "--" = false.
Proof.
  unfold Parser.delete_comments, Py.contains, Py.find, Py.slice_to.
  destruct (String.index 0 "--" line) as [i|] eqn:E.
  - rewrite (index_substring_Some "--" line i); [done..|].
    destruct (Z.of_nat i <? 0) eqn:Hneg; lia.
  - by rewrite (index_substring_None "--" line).
Qed.

(** *** Dictionaries, continued *)

Lemma Dict_get_None_keys (k : string) (d : Dict.t) :
  Dict.get k d = None ↔ k ∉ Dict.keys d.
Proof.
  unfold Dict.keys. induction d as [|[k' v'] d IH]; simpl.
  - split; [intros _; apply not_elem_of_nil|done].
  - rewrite not_elem_of_cons.
    destruct (String.eqb_spec k' k) as [->|Hne].
    + split; [done|]. by intros [? _].
    + rewrite IH. split; [|by intros [_ ?]]. intros H. split; [|done].
      by intros ->.
Qed.

Lemma Dict_get_Some_keys (k v : string) (d : Dict.t) :
  Dict.get k d = Some v → k ∈ Dict.keys d.
Proof.
  intros H. destruct (decide (k ∈ Dict.keys d)) as [|Hn]; [done|].
  apply Dict_get_None_keys in Hn. congruence.
Qed.

Lemma Dict_keys_set_absent (k v : string) (d : Dict.t) :
  Dict.get k d = None → Dict.keys (Dict.set k v d) = Dict.keys d ++ [k].
Proof.
  unfold Dict.keys. induction d as [|[k' v'] d IH]; simpl; [done|].
  destruct (String.eqb k' k); [done|]. intros H. simpl. by rewrite IH.
Qed.

Lemma Dict_set_NoDup (k v : string) (d : Dict.t) :
  NoDup (Dict.keys d) → NoDup (Dict.keys (Dict.set k v d)).
Proof.
  intros Hd. destruct (Dict.get k d) as [v0|] eqn:E.
  - rewrite Dict_keys_set_present; [done|]. by rewrite E.
  - rewrite Dict_keys_set_absent by done.
    apply NoDup_app. split; [done|]. split.
    + intros x Hx ->%list_elem_of_singleton.
      by apply Dict_get_None_keys in E.
    + apply NoDup_singleton.
Qed.

(** What every assignment keeps, the parser keeps. *)
Lemma step_selects_invariant (Q : Dict.t → Prop) (st : Parser.state)
    (line : string) :
  (∀ k v d, Q d → Q (Dict.set k v d)) →
  Q (Parser.selects st) → Q (Parser.selects (Parser.step st line)).
Proof.
  intros HQ Hst. unfold Parser.step, Parser.accumulate.
  repeat case_match; simpl; auto.
Qed.

Lemma parse_keys_NoDup (text : string) : NoDup (Dict.keys (Parser.parse text)).
Proof.
  unfold Parser.parse.
  assert (∀ lines st, NoDup (Dict.keys (Parser.selects st)) →
            NoDup (Dict.keys (Parser.selects (Parser.run st lines)))) as H.
  { induction lines as [|line lines IH]; intros st Hst; simpl; [done|].
    apply IH.
    apply (step_selects_invariant (λ d, NoDup (Dict.keys d)));
      auto using Dict_set_NoDup. }
  apply H. constructor.
Qed.

Lemma dict_update_get (d other : Dict.t) (k : string) :
  NoDup (Dict.keys other) →
  Dict.get k (dict_update d other)
  = match Dict.get k other with
    | Some v => Some v
    | None => Dict.get k d
    end.
Proof.
  unfold dict_update. revert d.
  induction other as [|[k1 v1] other IH]; intros d Hnd; simpl; [done|].
  change (NoDup (k1 :: Dict.keys other)) in Hnd.
  apply NoDup_cons in Hnd as [Hk1 Hnd]. rewrite IH by done.
  destruct (String.eqb_spec k1 k) as [->|Hne].
  - apply Dict_get_None_keys in Hk1. rewrite Hk1. apply Dict_get_set_eq.
  - destruct (Dict.get k other); [done|]. by apply Dict_get_set_ne.
Qed.

(** ** The widget *)

Section FurtherWidgetProperties.

Context {Row Domain : Type}.
Implicit Types (env : @Env Row Domain) (s : @St Row Domain).
Implicit Types (w : @OWSql Row Domain) (t : @Relation Row Domain).
Implicit Types (I : @St Row Domain → Prop).

#[local] Abbreviation keeps := (@keeps Row Domain).
#[local] Abbreviation steady := (@steady Row Domain).
#[local] Abbreviation frame := (@frame Row Domain).

Lemma frame_refl w : frame w w.
Proof. by repeat split. Qed.

Lemma steady_initially p s : steady p (self s) (trace s) s.
Proof.
  split; [apply frame_refl|]. exists []. by rewrite app_nil_r.
Qed.

Lemma steady_events p w0 s s' :
  steady p w0 (trace s) s' → forallb p (events_since s s') = true.
Proof.
  intros (_ & since & Ht & Hp). unfold events_since.
  by rewrite Ht, drop_app_length.
Qed.

(** A method that reads the widget may rely on what the invariant says of
    it. *)
Lemma keeps_read I (Q : OWSql → Prop) {A} (k : OWSql → M A) :
  (∀ s, I s → Q (self s)) →
  (∀ w, Q w → keeps I (k w)) →
  keeps I (get ≫= k).
Proof. intros HQ Hk s Hs. apply (Hk (self s)); auto. Qed.

Lemma steady_read p w0 before {A} (k : OWSql → M A) :
  (∀ w, frame w0 w → keeps (steady p w0 before) (k w)) →
  keeps (steady p w0 before) (get ≫= k).
Proof. apply keeps_read. by intros s [H _]. Qed.

Lemma steady_modify p w0 before (f : OWSql → OWSql) :
  (∀ w, frame w0 w → frame w0 (f w)) →
  keeps (steady p w0 before) (modify f).
Proof.
  intros Hf [w tr] [Hw Ht]. split; [|done]. split; [|done]. by apply Hf.
Qed.

Lemma steady_emit p w0 before e :
  p e = true → keeps (steady p w0 before) (emit e).
Proof.
  intros He [w tr] (Hw & since & Ht & Hp). split; [|done].
  simpl in Ht; subst tr. split; [done|].
  exists (since ++ [e]). simpl. rewrite app_assoc. split; [done|].
  rewrite forallb_app, Hp. simpl. by rewrite He.
Qed.

Ltac steady_step :=
  first
    [ assumption
    | apply keeps_mret | apply keeps_return_None | apply keeps_raise
    | apply steady_emit; solve [ reflexivity | auto ]
    | apply steady_modify; intros ? ?; assumption
    | apply keeps_try
    | apply steady_read
    | apply keeps_bind
    | progress intros
    | match goal with
      | |- keeps _ (match ?x with _ => _ end) => destruct x eqn:?
      end ].
Ltac steady_auto := repeat steady_step.

Lemma steady_ingest env p w0 before t :
  (∀ e, is_query e = false → p e = true) →
  keeps (steady p w0 before) (ingest env t).
Proof.
  intros Hp.
  unfold ingest, Error_connection_clear, discovery_decision, discover,
    download_or_not, download_decision, modify_base.
  steady_auto.
Qed.

Lemma steady_open_relation env p w0 before what :
  p (OpenSqlTable what) = true →
  keeps (steady p w0 before) (open_relation env what).
Proof.
  intros Hp. unfold open_relation, Error_connection_show, modify_base.
  steady_auto.
Qed.

Lemma frame_custom_selected w0 w :
  frame w0 w → custom_selected w = custom_selected w0.
Proof.
  intros (_ & Ht & Hi & Hf & _). unfold custom_selected, itemText.
  by rewrite Ht, Hi, Hf.
Qed.

Lemma steady_materialize_query env p w0 before :
  (materialize w0 = true → ∀ statement, p (ExecuteSql statement) = true) →
  keeps (steady p w0 before) (materialize_query env).
Proof.
  intros Hp. unfold materialize_query. apply steady_read. intros w Hf.
  assert (materialize w = materialize w0) as -> by apply Hf.
  destruct (materialize w0); [|apply keeps_mret].
  specialize (Hp eq_refl).
  unfold backend_execute_sql_query, Error_connection_show, modify_base.
  steady_auto.
Qed.

Lemma steady_resolve_source env p w0 before :
  (custom_selected w0 = true → materialize w0 = true →
   ∀ statement, p (ExecuteSql statement) = true) →
  keeps (steady p w0 before) (resolve_source env).
Proof.
  intros Hp. unfold resolve_source. apply steady_read. intros w Hf.
  pose proof (frame_custom_selected w0 w Hf) as Hc.
  unfold custom_selected in Hc.
  destruct (currentIndex w <=? 0) eqn:E1.
  { unfold database_desc_setitem, modify_base. steady_auto. }
  destruct (Dict.mem _ (file_queries w)) eqn:E2.
  { unfold database_desc_setitem, tables_getitem, modify_base. steady_auto. }
  destruct (String.eqb _ "Custom SQL") eqn:E3; simpl.
  - pose proof (steady_materialize_query env p w0 before (Hp (eq_sym Hc))).
    steady_auto.
  - unfold database_desc_setitem, database_desc_discard, tables_getitem,
      modify_base.
    steady_auto.
Qed.

Lemma steady_get_table env p w0 before :
  (custom_selected w0 = true → materialize w0 = true →
   ∀ statement, p (ExecuteSql statement) = true) →
  (∀ e, is_statement e = false → p e = true) →
  keeps (steady p w0 before) (get_table env).
Proof.
  intros Hstatements Hp. unfold get_table.
  apply keeps_bind; [by apply steady_resolve_source|intros what].
  apply keeps_bind; [by apply steady_open_relation, Hp|intros t].
  apply steady_ingest. intros e He. apply Hp. by destruct e.
Qed.

(** X7. [get_table] leaves alone the backend, the list of tables and the
    selection in it, the queries of the file, the text of the editor, the
    download and materialize options and the warning: it assigns only the
    description, the data, the messages, [sql], [table] and
    [guess_values]. *)
Theorem get_table_frame env s :
  let w := self s in
  let w' := self (snd (get_table env s)) in
  backend (base w') = backend (base w)
  ∧ tables w' = tables w
  ∧ currentIndex w' = currentIndex w
  ∧ file_queries w' = file_queries w
  ∧ sqltext w' = sqltext w
  ∧ download w' = download w
  ∧ downloadcb_enabled w' = downloadcb_enabled w
  ∧ materialize w' = materialize w
  ∧ materialize_table_name w' = materialize_table_name w
  ∧ Warning_missing_extension w' = Warning_missing_extension w.
Proof.
  destruct (steady_get_table env (λ _, true) (self s) (trace s)) with (s := s)
    as [[Hf _] _]; try done.
  apply steady_initially.
Qed.

(** X8. Statements run on the backend only to materialize a custom query:
    unless Custom SQL is selected and materialize is set, a run of
    [get_table] executes none, whatever it opens and downloads. *)
Theorem statements_only_to_materialize env s :
  custom_selected (self s) && materialize (self s) = false →
  forallb (λ e, negb (is_statement e))
    (events_since s (snd (get_table env s))) = true.
Proof.
  intros [Hc|Hm]%andb_false_iff;
    (eapply steady_events;
     eapply (steady_get_table env _ (self s) (trace s));
     [congruence|by intros e ->|apply steady_initially]).
Qed.

(** *** The runs of [ingest], case by case *)

(** Rewrites with the tests already decided, as far as they show. *)
Ltac settle :=
  repeat (progress
            (simpl;
             repeat match goal with
                    | H : ?c = _ |- context [?c] => rewrite H
                    end)).

(** Decides one more test of the run. *)
Ltac decide_test :=
  match goal with
  | |- context [if ?c then _ else _] =>
      lazymatch c with
      | (_ <? _) => idtac
      | (_ <=? _) => idtac
      | (_ =? _) => idtac
      | guess_values _ => idtac
      | download _ => idtac
      | is_postgres _ => idtac
      | clicked_is _ _ => idtac
      end;
      destruct c eqn:?
  | |- context [andb ?c _] =>
      lazymatch c with
      | (_ <? _) => idtac
      | guess_values _ => idtac
      | is_postgres _ => idtac
      end;
      destruct c eqn:?
  | |- context [match question_answer ?e with _ => _ end] =>
      destruct (question_answer e) eqn:?
  end.

Ltac run_ingest :=
  unfold ingest, Error_connection_clear, discovery_decision, discover,
    download_or_not, download_decision, modify_base,
    mbind, M_bind, get, modify, emit, return_, raise, mret, M_ret;
  settle; repeat (decide_test; settle).

(** The events of a run whose trace is known. *)
Ltac events :=
  unfold events_since; simpl;
  rewrite <- ?app_assoc; rewrite ?drop_app_length, ?drop_all; simpl.

(** X9. The prompt before attribute discovery is shown exactly when the
    table is estimated above LARGE_TABLE and [guess_values] is set;
    otherwise [ingest] does not ask. *)
Theorem discovery_prompt_exactly_on_large_tables env s t :
  forallb (λ e, negb (is_discovery_prompt e))
    (events_since s (snd (ingest env t s)))
  = negb ((LARGE_TABLE env <? approx_len t) && guess_values (self s)).
Proof.
  destruct s as [w tr]. run_ingest; events; done.
Qed.

(** X10. With [guess_values] off, [ingest] does nothing for attribute
    discovery: no prompt, no sample, no inspection of values; the option
    stays off and no sampling is reported. *)
Theorem no_discovery_without_guess_values env s t :
  guess_values (self s) = false →
  let s' := snd (ingest env t s) in
  forallb (λ e, negb (is_discovery e)) (events_since s s') = true
  ∧ guess_values (self s') = false
  ∧ Information_data_sampled (self s') = false.
Proof.
  intros Hg. destruct s as [w tr]. simpl in Hg.
  run_ingest; events; done.
Qed.

(** X11. On a backend that is not PostgreSQL, [ingest] never samples:
    neither for attribute discovery nor for the download, whatever the
    prompts answer, and it reports no sampling. *)
Theorem no_sampling_off_PostgreSQL env s t :
  is_postgres (backend (base (self s))) = false →
  let s' := snd (ingest env t s) in
  forallb (λ e, negb (is_sampling e)) (events_since s s') = true
  ∧ Information_data_sampled (self s') = false.
Proof.
  intros Hp. destruct s as [w tr]. simpl in Hp.
  run_ingest; events; done.
Qed.

(** X12. [ingest] asks for a decision on the download exactly when download
    is set, the table is estimated above AUTO_DL_LIMIT, and the backend is
    PostgreSQL or the table is within MAX_DL_LIMIT. *)
Theorem download_decision_exactly_when env s t :
  forallb (λ e, negb (is_download_decision e))
    (events_since s (snd (ingest env t s)))
  = negb (download (self s)
          && (AUTO_DL_LIMIT env <? approx_len t)
          && (is_postgres (backend (base (self s)))
              || (approx_len t <=? MAX_DL_LIMIT))).
Proof.
  destruct s as [w tr]. run_ingest; events; try done; lia.
Qed.

(** X13. [ingest] downloads exactly on the runs that return a local table:
    a run that ends without data, because the user declined or the table
    was refused, has taken no sample and downloaded nothing. *)
Theorem downloads_exactly_when_local env s t :
  forallb (λ e, negb (is_download e)) (events_since s (snd (ingest env t s)))
  = match fst (ingest env t s) with
    | Next (Local _ _) => false
    | _ => true
    end.
Proof.
  destruct s as [w tr]. run_ingest; events; done.
Qed.

(** X14. With download off, [ingest] always returns the remote table,
    whatever the prompts answer: the relation it was given, with its
    estimate and rows, and at most a new domain. *)
Theorem remote_when_download_is_off env s t :
  download (self s) = false →
  match fst (ingest env t s) with
  | Next (Remote t') =>
      approx_len t' = approx_len t ∧ rows t' = rows t
      ∧ (guess_values (self s) = false → t' = t)
  | _ => False
  end.
Proof.
  intros Hd. destruct s as [w tr]. simpl in Hd.
  run_ingest; try done; by destruct t.
Qed.

(** *** The runs of [get_table] *)

Lemma get_table_nothing_selected env s :
  currentIndex (self s) ≤ 0 →
  let s' := snd (get_table env s) in
  fst (get_table env s) = Return None
  ∧ events_since s s' = []
  ∧ data_desc_table (base (self s')) = None
  ∧ Error_connection (base (self s')) = Error_connection (base (self s))
  ∧ sql (self s') = sql (self s)
  ∧ table (self s') = table (self s)
  ∧ guess_values (self s') = guess_values (self s).
Proof.
  intros Hi. apply Z.leb_le in Hi. destruct s as [w tr]. simpl in *.
  unfold get_table, resolve_source, database_desc_setitem, modify_base,
    mbind, M_bind, get, modify, return_, mret, M_ret.
  simpl. rewrite Hi.
  destruct (database_desc (base w)) as [[|kv d]|] eqn:E; simpl;
    rewrite ?E; simpl; events; done.
Qed.

(** X15. With nothing selected, that is with the current index at 0 or
    below, [get_table] returns no data and asks nothing of the backend or
    the user; it forgets the data described and keeps the settings. *)
Theorem nothing_selected_no_data env s :
  currentIndex (self s) ≤ 0 →
  let s' := snd (get_table env s) in
  fst (get_table env s) = Return None
  ∧ events_since s s' = []
  ∧ data_desc_table (base (self s')) = None
  ∧ Error_connection (base (self s')) = Error_connection (base (self s))
  ∧ sql (self s') = sql (self s)
  ∧ table (self s') = table (self s)
  ∧ guess_values (self s') = guess_values (self s).
Proof. apply get_table_nothing_selected. Qed.

(** X16. [clear] leaves a widget without tables and without selection, on
    which [get_table] returns no data and asks nothing. *)
Theorem cleared_widget_gives_no_data env s :
  let c := snd (clear env s) in
  tables (self c) = []
  ∧ currentIndex (self c) = -1
  ∧ fst (get_table env c) = Return None
  ∧ events_since c (snd (get_table env c)) = [].
Proof.
  simpl. split; [done|]. split; [done|].
  pose proof (get_table_nothing_selected env (snd (clear env s))) as H.
  simpl in H. destruct H as (H1 & H2 & _); [done|]. by split.
Qed.

Lemma open_relation_fails env what msg s :
  SqlTable env what = inl msg →
  (open_relation env what ≫= λ t, ingest env t) s
  = (Return None,
     MkSt (set_base (set_Error_connection (Some msg) (base (self s))) (self s))
          (trace s ++ [OpenSqlTable what])).
Proof.
  intros H. destruct s as [w tr].
  unfold open_relation, try_except_BackendError, Error_connection_show,
    modify_base, mbind, M_bind, emit, modify, raise, return_. simpl.
  by rewrite H.
Qed.

(** X17. When the relation cannot be opened, [get_table] returns no data:
    after the queries it sent it asks nothing and downloads nothing, and
    where the relation was tried it shows the message of the error. *)
Theorem no_data_when_relation_fails_to_open env s msg :
  (∀ what, SqlTable env what = inl msg) →
  let s' := snd (get_table env s) in
  match fst (get_table env s) with Next _ => False | _ => True end
  ∧ forallb is_query (events_since s s') = true
  ∧ (∀ what, fst (resolve_source env s) = Next what →
       fst (get_table env s) = Return None
       ∧ Error_connection (base (self s')) = Some msg
       ∧ last (trace s') = Some (OpenSqlTable what)).
Proof.
  intros Hfail.
  destruct (steady_resolve_source env is_query (self s) (trace s)) with (s := s)
    as [Hs Hq]; [done|apply steady_initially|].
  unfold get_table.
  change (resolve_source env ≫= _)
    with (λ s0 : @St Row Domain,
            match resolve_source env s0 with
            | (Next a, s1) => (open_relation env a ≫= λ t, ingest env t) s1
            | (Return r, s1) => (Return r, s1)
            | (Raise e, s1) => (Raise e, s1)
            end).
  cbv beta zeta.
  destruct (resolve_source env s) as [[what|r|e] s1].
  - rewrite (open_relation_fails env what msg s1 (Hfail what)). simpl in *.
    split; [done|]. split.
    + destruct Hs as (_ & since & Ht & Hp). unfold events_since. simpl.
      rewrite Ht, <- app_assoc, drop_app_length, forallb_app, Hp. done.
    + intros ? [= <-]. by rewrite last_snoc.
  - split; [done|]. split; [|done]. by eapply steady_events.
  - split; [done|]. split; [|done]. by eapply steady_events.
Qed.

Lemma ingest_leaves_no_error env t s :
  Error_connection (base (self (snd (ingest env t s)))) = None.
Proof. destruct s as [w tr]. run_ingest; done. Qed.

(** X18. A run of [get_table] that answers data leaves no connection error
    shown, whatever was shown before. *)
Theorem data_leaves_no_error_shown env s :
  match get_table env s with
  | (Next _, s') => Error_connection (base (self s')) = None
  | _ => True
  end.
Proof.
  unfold get_table, mbind, M_bind.
  destruct (resolve_source env s) as [[what|r|e] s1]; [|done..].
  destruct (open_relation env what s1) as [[t|r|e] s2]; [|done..].
  pose proof (ingest_leaves_no_error env t s2) as H.
  by destruct (ingest env t s2) as [[d|r|e] s3].
Qed.

(** What [resolve_source] answers for a selected entry, when nothing is
    to be materialized. *)
Lemma resolve_source_selected env s name d :
  0 < currentIndex (self s) →
  tables (self s) !! Z.to_nat (currentIndex (self s)) = Some name →
  database_desc (base (self s)) = Some d →
  custom_selected (self s) && materialize (self s) = false →
  let target :=
    if Dict.mem name (file_queries (self s)) || String.eqb name "Custom SQL"
    then sqltext (self s) else name in
  ∃ s1, resolve_source env s = (Next target, s1)
        ∧ trace s1 = trace s
        ∧ table (self s1) = Some name.
Proof.
  intros Hi Hname Hd Hnomat. destruct s as [w tr]. simpl in *.
  assert ((currentIndex w <=? 0) = false) as Hidx by by apply Z.leb_gt.
  assert (itemText w (currentIndex w) = name) as Hitem.
  { unfold itemText. rewrite Hname.
    by destruct (currentIndex w <? 0) eqn:E; [apply Z.ltb_lt in E; lia|]. }
  unfold custom_selected in Hnomat. rewrite Hidx, Hitem in Hnomat.
  unfold resolve_source, materialize_query, database_desc_setitem,
    database_desc_discard, tables_getitem, modify_base,
    mbind, M_bind, get, modify, mret, M_ret.
  simpl. rewrite Hidx, Hitem. simpl.
  destruct (Dict.mem name (file_queries w)) eqn:Hmem; simpl in *.
  { rewrite Hname. simpl. rewrite Hd. simpl. eauto. }
  destruct (String.eqb_spec name "Custom SQL") as [->|Hne]; simpl in *.
  { rewrite Hnomat. simpl. eauto. }
  rewrite Hname. simpl. rewrite Hd. simpl.
  destruct (Dict.mem "Query" _); simpl; eauto.
Qed.

Lemma get_table_opens_selected env s name d :
  0 < currentIndex (self s) →
  tables (self s) !! Z.to_nat (currentIndex (self s)) = Some name →
  database_desc (base (self s)) = Some d →
  custom_selected (self s) && materialize (self s) = false →
  let target :=
    if Dict.mem name (file_queries (self s)) || String.eqb name "Custom SQL"
    then sqltext (self s) else name in
  ∃ rest,
    events_since s (snd (get_table env s)) = OpenSqlTable target :: rest.
Proof.
  intros Hi Hname Hd Hnomat target.
  destruct (resolve_source_selected env s name d Hi Hname Hd Hnomat)
    as (s1 & Hr & Ht & Htable).
  fold target in Hr.
  destruct (open_and_ingest_trace env target s1) as (rest & Hrest & _).
  exists rest. unfold get_table.
  change (resolve_source env ≫= _)
    with (λ s0 : @St Row Domain,
            match resolve_source env s0 with
            | (Next a, s') => (open_relation env a ≫= ingest env) s'
            | (Return r, s') => (Return r, s')
            | (Raise e, s') => (Raise e, s')
            end).
  cbv beta. rewrite Hr. unfold events_since.
  by rewrite Hrest, Ht, drop_app_length.
Qed.

(** X19. The relation is opened on the selection: on the text of the
    editor for a query of the file and for Custom SQL, on the name of the
    table otherwise. With nothing to materialize, this opening is the
    first thing [get_table] asks for, and the selection is kept in
    [table]. *)
Theorem relation_opened_on_selection env s name d :
  0 < currentIndex (self s) →
  tables (self s) !! Z.to_nat (currentIndex (self s)) = Some name →
  database_desc (base (self s)) = Some d →
  custom_selected (self s) && materialize (self s) = false →
  let target :=
    if Dict.mem name (file_queries (self s)) || String.eqb name "Custom SQL"
    then sqltext (self s) else name in
  fst (resolve_source env s) = Next target
  ∧ table (self (snd (resolve_source env s))) = Some name
  ∧ ∃ rest,
      events_since s (snd (get_table env s)) = OpenSqlTable target :: rest.
Proof.
  intros Hi Hname Hd Hnomat target.
  destruct (resolve_source_selected env s name d Hi Hname Hd Hnomat)
    as (s1 & Hr & Ht & Htable).
  fold target in Hr. rewrite Hr. simpl. repeat split; try done.
  by apply (get_table_opens_selected env s name d).
Qed.

(** *** The connection *)

(** X20. A connection to PostgreSQL with no extension missing leaves the
    download option and its check box as they were. *)
Theorem complete_PostgreSQL_keeps_download_option env s b :
  backend (base (self s)) = Some b →
  is_postgres (Some b) = true →
  missing_extension b = [] →
  let s' := snd (on_connection_success env s) in
  download (self s') = download (self s)
  ∧ downloadcb_enabled (self s') = downloadcb_enabled (self s).
Proof.
  intros Hb Hpg Hmiss. unfold on_connection_success.
  set (rest := (modify_base (super_on_connection_success env);; _)).
  assert (keeps
            (stable (λ _, true) (download (self s))
               (downloadcb_enabled (self s)) (trace s)) rest) as Hrest.
  { unfold rest, modify_base.
    apply keeps_bind; [by apply stable_modify|intros _].
    apply keeps_bind; [apply stable_refresh_tables|intros _].
    apply stable_select_table. }
  destruct s as [w tr]. simpl in *.
  unfold mbind, M_bind, get, modify, mret, M_ret. simpl. rewrite Hb. simpl.
  rewrite Hmiss. simpl in *. rewrite Hpg. simpl.
  destruct (Hrest (MkSt w tr)) as [(H1 & H2 & _) _]; [|done].
  by apply (stable_initially _ _ _ (MkSt w tr)).
Qed.

(** *** The list of tables *)

Lemma findText_range (items : list string) (text : string) :
  -1 ≤ findText items text < Z.of_nat (length items).
Proof.
  induction items as [|x items IH]; simpl; [lia|].
  destruct (String.eqb x text); [lia|].
  destruct (findText items text =? -1) eqn:E; lia.
Qed.

Lemma findText_found (items : list string) (text : string) :
  0 ≤ findText items text →
  items !! Z.to_nat (findText items text) = Some text.
Proof.
  induction items as [|x items IH]; simpl; [lia|].
  destruct (String.eqb_spec x text) as [->|Hne]; [done|].
  destruct (findText items text =? -1) eqn:E; [lia|].
  apply Z.eqb_neq in E. pose proof (findText_range items text).
  intros _. rewrite Z2Nat.inj_add by lia.
  replace (Z.to_nat (findText items text) + Z.to_nat 1)%nat
    with (S (Z.to_nat (findText items text))) by lia.
  simpl. apply IH. lia.
Qed.

Lemma findText_missing (items : list string) (text : string) :
  findText items text = -1 → text ∉ items.
Proof.
  induction items as [|x items IH]; simpl.
  - intros _. apply not_elem_of_nil.
  - destruct (String.eqb_spec x text) as [->|Hne]; [done|].
    destruct (findText items text =? -1) eqn:E.
    + apply Z.eqb_eq in E. intros _. apply not_elem_of_cons. auto.
    + pose proof (findText_range items text). apply Z.eqb_neq in E. lia.
Qed.

(** [findText] answers the first entry that reads as the text. *)
Lemma findText_first (items : list string) (text : string) (j : nat) :
  Z.of_nat j < findText items text → items !! j ≠ Some text.
Proof.
  revert j. induction items as [|x items IH]; intros j; simpl; [lia|].
  destruct (String.eqb_spec x text) as [->|Hne]; [lia|].
  destruct (findText items text =? -1) eqn:E; [lia|].
  destruct j as [|j]; simpl; [congruence|].
  intros Hj. apply IH. lia.
Qed.

#[local] Arguments findText : simpl never.

(** X21. [refresh_tables] rebuilds the list of tables. Without a backend
    the list is empty, nothing is selected and the backend is not asked.
    With one, the backend is asked once, for its tables. If it answers,
    the list is the two fixed entries, then the queries of the file in
    their order, then the tables of the backend; the current index is
    within the list, on the first entry that reads as [table] did if
    there is one, and on entry 0 otherwise. If it fails, the error is
    raised with the list at the fixed entries and the queries of the
    file, its first entry current. *)
Theorem refresh_tables_catalog env s :
  let w := self s in
  let r := refresh_tables env s in
  let w' := self (snd r) in
  let text := Py.str (table w) in
  let fixed := ["Select a table"; "Custom SQL"] ++ Dict.keys (file_queries w) in
  match backend (base w), list_tables env with
  | None, _ =>
      fst r = Next tt
      ∧ events_since s (snd r) = []
      ∧ tables w' = [] ∧ currentIndex w' = -1
      ∧ data_desc_table (base w') = None
  | Some _, inl msg =>
      fst r = Raise (BackendError msg)
      ∧ events_since s (snd r) = [ListTables]
      ∧ tables w' = fixed ∧ currentIndex w' = 0
  | Some _, inr listed =>
      fst r = Next tt
      ∧ events_since s (snd r) = [ListTables]
      ∧ tables w' = fixed ++ listed
      ∧ (0 ≤ currentIndex w' ∧ currentIndex w' < Z.of_nat (length (tables w')))
      ∧ if bool_decide (text ∈ tables w')
        then tables w' !! Z.to_nat (currentIndex w') = Some text
             ∧ ∀ j, (j < Z.to_nat (currentIndex w'))%nat →
                    tables w' !! j ≠ Some text
        else currentIndex w' = 0
  end.
Proof.
  destruct s as [w tr].
  unfold refresh_tables, tables_append, tables_extend, backend_list_tables,
    rows_inserted, modify_base, events_since,
    mbind, M_bind, get, modify, emit, raise, mret, M_ret.
  simpl.
  destruct (backend (base w)) as [b|] eqn:Hb; simpl.
  2: { destruct (list_tables env); by rewrite drop_all. }
  destruct (list_tables env) as [msg|listed]; simpl.
  { by rewrite drop_app_length. }
  rewrite drop_app_length.
  set (items := "Select a table" :: "Custom SQL"
                :: Dict.keys (file_queries w) ++ listed).
  set (text := Py.str (table w)).
  pose proof (findText_range items text) as Hrange.
  do 3 (split; [done|]).
  assert (2 ≤ Z.of_nat (length items)) as Hlen.
  { unfold items. rewrite !length_cons. lia. }
  destruct (findText items text =? -1) eqn:E.
  - apply Z.eqb_eq in E. split.
    { change (S (S (length (Dict.keys (file_queries w) ++ listed))))
        with (length items). lia. }
    rewrite bool_decide_eq_false_2 by by apply findText_missing. done.
  - apply Z.eqb_neq in E.
    assert (0 ≤ findText items text) as Hpos by lia.
    pose proof (findText_found items text Hpos) as Hfound.
    split.
    { change (S (S (length (Dict.keys (file_queries w) ++ listed))))
        with (length items). lia. }
    rewrite bool_decide_eq_true_2 by by eapply list_elem_of_lookup_2.
    split; [done|].
    intros j Hj. apply findText_first. lia.
Qed.

(** X22. Choosing a query of the file puts its stored text in the editor
    and runs nothing; the run that follows opens the relation on that
    text. *)
Theorem chosen_file_query_is_what_runs env s name q d :
  0 < currentIndex (self s) →
  tables (self s) !! Z.to_nat (currentIndex (self s)) = Some name →
  Dict.get name (file_queries (self s)) = Some q →
  database_desc (base (self s)) = Some d →
  let s1 := snd (select_table env s) in
  events_since s s1 = []
  ∧ sqltext (self s1) = q
  ∧ table (self s1) = None
  ∧ data_desc_table (base (self s1)) = None
  ∧ ∃ rest,
      events_since s1 (snd (get_table env s1)) = OpenSqlTable q :: rest.
Proof.
  intros Hi Hname Hq Hd. destruct s as [w tr]. simpl in *.
  assert (itemText w (currentIndex w) = name) as Hitem.
  { unfold itemText. rewrite Hname.
    by destruct (currentIndex w <? 0) eqn:E; [apply Z.ltb_lt in E; lia|]. }
  assert (Dict.mem name (file_queries w) = true) as Hmem.
  { unfold Dict.mem. by rewrite Hq. }
  assert (select_table env (MkSt w tr)
          = (Next tt,
             MkSt (set_sqltext q
                     (set_table None
                        (set_base
                           (set_database_desc
                              (Some (Dict.set "Table" "(None)" d))
                              (set_data_desc_table None (base w))) w)))
                  tr)) as Hsel.
  { unfold select_table, database_desc_setitem, modify_base,
      mbind, M_bind, get, modify, mret, M_ret.
    simpl. rewrite Hitem, Hmem, andb_false_r. simpl. rewrite Hd. simpl.
    by rewrite Hq. }
  rewrite Hsel. cbn [snd].
  split; [unfold events_since; simpl; by rewrite drop_all|].
  do 3 (split; [done|]).
  match goal with |- ∃ rest, events_since ?s1 _ = _ =>
    destruct (get_table_opens_selected env s1 name
                (Dict.set "Table" "(None)" d)) as (rest & Hrest);
      [done|done|done| |]
  end.
  - unfold custom_selected, itemText. simpl.
    destruct (currentIndex w <? 0) eqn:E; [apply Z.ltb_lt in E; lia|].
    rewrite Hname. simpl. rewrite Hmem. simpl. by rewrite andb_false_r.
  - simpl in Hrest. rewrite Hmem in Hrest. simpl in Hrest. eauto.
Qed.

(** *** Loading queries from a file *)

(** X23. A load that cannot read changes nothing but its message: with an
    empty path the file system is not asked and the empty-path error is
    shown; with a path that cannot be opened the file error is shown and
    the empty-path error cleared. Widget and trace stay as they were. *)
Theorem failed_load_changes_nothing env open_file (f : FileControls) s :
  path_to_res_file f = "" ∨ open_file (path_to_res_file f) = None →
  let r := _load_tables_from_file env open_file f s in
  fst r = (Next tt, s)
  ∧ snd r
    = if String.eqb (path_to_res_file f) ""
      then MkFileControls (path_to_res_file f) true (Error_file_os_error f)
      else MkFileControls (path_to_res_file f) false true.
Proof.
  intros H. unfold _load_tables_from_file, _parse_sql_resource_file.
  destruct (String.eqb_spec (path_to_res_file f) "") as [He|Hne]; [done|].
  destruct H as [H|H]; [done|]. by rewrite H.
Qed.

(** X24. A load that reads adds the queries of the file to those the widget
    has: both messages are cleared, every query parsed is found under its
    key and listed among the tables, and the queries under other keys
    stay. The backend is asked once, for its tables, and the user
    nothing; the load ends as that listing does, and when the backend
    answers its tables are listed too. *)
Theorem loaded_queries_are_listed env open_file (f : FileControls) s text b :
  path_to_res_file f ≠ "" →
  open_file (path_to_res_file f) = Some text →
  backend (base (self s)) = Some b →
  let r := _load_tables_from_file env open_file f s in
  let s' := snd (fst r) in
  snd r = MkFileControls (path_to_res_file f) false false
  ∧ (∀ k v, Dict.get k (Parser.parse text) = Some v →
       Dict.get k (file_queries (self s')) = Some v ∧ k ∈ tables (self s'))
  ∧ (∀ k, Dict.get k (Parser.parse text) = None →
       Dict.get k (file_queries (self s'))
       = Dict.get k (file_queries (self s)))
  ∧ events_since s s' = [ListTables]
  ∧ match list_tables env with
    | inl msg => fst (fst r) = Raise (BackendError msg)
    | inr listed =>
        fst (fst r) = Next tt ∧ ∀ name, name ∈ listed → name ∈ tables (self s')
    end.
Proof.
  intros Hpath Hopen Hb. destruct s as [w tr]. simpl in *.
  unfold _load_tables_from_file, _parse_sql_resource_file.
  destruct (String.eqb_spec (path_to_res_file f) "") as [|_]; [done|].
  rewrite Hopen.
  unfold refresh_tables, tables_append, tables_extend, backend_list_tables,
    rows_inserted, modify_base, events_since,
    mbind, M_bind, get, modify, emit, raise, mret, M_ret.
  simpl. rewrite Hb. simpl. split; [done|].
  pose proof (parse_keys_NoDup text) as Hnd.
  assert (∀ k v, Dict.get k (Parser.parse text) = Some v →
            Dict.get k (dict_update (file_queries w) (Parser.parse text))
            = Some v
            ∧ k ∈ Dict.keys (dict_update (file_queries w) (Parser.parse text)))
    as Hkeys.
  { intros k v Hk.
    assert (Dict.get k (dict_update (file_queries w) (Parser.parse text))
            = Some v) as Hget by by rewrite dict_update_get, Hk.
    split; [done|]. by eapply Dict_get_Some_keys. }
  destruct (list_tables env) as [msg|listed]; simpl;
    rewrite drop_app_length.
  - split; [|split; [|done]].
    + intros k v Hk. destruct (Hkeys k v Hk) as [Hget Hin]. split; [done|].
      by do 2 apply list_elem_of_further.
    + intros k Hk. by rewrite dict_update_get, Hk.
  - split; [|split; [|split; [done|split; [done|]]]].
    + intros k v Hk. destruct (Hkeys k v Hk) as [Hget Hin]. split; [done|].
      do 2 apply list_elem_of_further. apply elem_of_app. by left.
    + intros k Hk. by rewrite dict_update_get, Hk.
    + intros name Hname. do 2 apply list_elem_of_further. apply elem_of_app.
      by right.
Qed.

End FurtherWidgetProperties.

(** ** The further properties, at the example inputs *)

(** The query orders is stored as one line. *)
Lemma multi_line_query_stored_witness :
  Forall (λ l, Lines.continues l = true) ["FROM orders" +:+ Py.NL]
  ∧ Parser.run Parser.initial Sample.orders
    = Parser.State [("ORDERS", "SELECT id  FROM orders WHERE total > 0;")]
        None [].
Proof.
  split; [by repeat constructor|].
  exact (multi_line_query_stored Parser.initial
           ("-- name: orders " +:+ Py.NL) " orders "
           ("SELECT id -- key" +:+ Py.NL) ("WHERE total > 0;" +:+ Py.NL)
           ["FROM orders" +:+ Py.NL]
           eq_refl eq_refl eq_refl eq_refl eq_refl eq_refl
           ltac:(by repeat constructor) eq_refl eq_refl eq_refl).
Defined.

(** A file without a name: a comment, a query over two lines, and two
    queries of one line. The query over two lines is not stored. *)
Lemma unnamed_file_has_only_NONE_witness :
  Forall (λ l, Re.name_pattern l = None) (Py.readlines Sample.unnamed)
  ∧ (∀ n, let st := Parser.run Parser.initial
                      (take n (Py.readlines Sample.unnamed)) in
          Parser.name st = None ∧ Parser.query st = [])
  ∧ Parser.parse Sample.unnamed = [("NONE", "select 2;" +:+ Py.NL)].
Proof.
  split; [by repeat constructor|].
  exact (unnamed_file_has_only_NONE Sample.unnamed
           ltac:(by repeat constructor)).
Defined.

(** The names [a] and [ A ] are one key. *)
Lemma same_name_last_wins_witness :
  let first := Parser.run Parser.initial (take 2 Sample.twice) in
  let both := Parser.run Parser.initial Sample.twice in
  Parser.trn (Some "a") = Parser.trn (Some " A ")
  ∧ Dict.get (Parser.trn (Some "a")) (Parser.selects both)
    = Some ("SELECT 2;" +:+ Py.NL)
  ∧ Dict.keys (Parser.selects both) = Dict.keys (Parser.selects first)
  ∧ both = Parser.run Parser.initial (drop 2 Sample.twice).
Proof.
  split; [reflexivity|].
  exact (same_name_last_wins Parser.initial
           ("-- name:a" +:+ Py.NL) "a" ("SELECT 1;" +:+ Py.NL)
           ("-- name: A " +:+ Py.NL) " A " ("SELECT 2;" +:+ Py.NL)
           eq_refl eq_refl eq_refl eq_refl eq_refl eq_refl
           eq_refl eq_refl eq_refl eq_refl eq_refl eq_refl).
Defined.

(** The table iris, opened and downloaded. *)
Lemma statements_only_to_materialize_witness :
  let s := Example.start (Sample.widget Example.PostgreSQL 3 true true) in
  custom_selected (self s) && materialize (self s) = false
  ∧ forallb (λ e, negb (is_statement e))
      (events_since s (snd (get_table Example.quiet s))) = true.
Proof.
  split; [reflexivity|].
  exact (statements_only_to_materialize Example.quiet
           (Example.start (Sample.widget Example.PostgreSQL 3 true true))
           eq_refl).
Defined.

(** A large table, with discovery off. *)
Lemma no_discovery_without_guess_values_witness :
  let env := Example.env (λ _, None) 2000000 None None Yes in
  let s := Example.start (Sample.widget Example.PostgreSQL 3 false false) in
  let s' := snd (ingest env (Example.relation 2000000) s) in
  guess_values (self s) = false
  ∧ forallb (λ e, negb (is_discovery e)) (events_since s s') = true
  ∧ guess_values (self s') = false
  ∧ Information_data_sampled (self s') = false.
Proof.
  split; [reflexivity|].
  exact (no_discovery_without_guess_values
           (Example.env (λ _, None) 2000000 None None Yes)
           (Example.start (Sample.widget Example.PostgreSQL 3 false false))
           (Example.relation 2000000) eq_refl).
Defined.

(** A large table on SQLite, with a user who asks for samples. *)
Lemma no_sampling_off_PostgreSQL_witness :
  let env :=
    Example.env (λ _, None) 500000 (Some SampleButton) (Some SampleButton) Yes in
  let s := Example.start (Sample.widget Example.SQLite 3 true true) in
  let s' := snd (ingest env (Example.relation 500000) s) in
  is_postgres (backend (base (self s))) = false
  ∧ forallb (λ e, negb (is_sampling e)) (events_since s s') = true
  ∧ Information_data_sampled (self s') = false.
Proof.
  split; [reflexivity|].
  exact (no_sampling_off_PostgreSQL
           (Example.env (λ _, None) 500000 (Some SampleButton)
              (Some SampleButton) Yes)
           (Example.start (Sample.widget Example.SQLite 3 true true))
           (Example.relation 500000) eq_refl).
Defined.

(** A large table on PostgreSQL, download off, the sample chosen. *)
Lemma remote_when_download_is_off_witness :
  let env :=
    Example.env (λ _, None) 500000 (Some SampleButton) (Some NoButton) No in
  let s := Example.start (Sample.widget Example.PostgreSQL 3 false true) in
  download (self s) = false
  ∧ match fst (ingest env (Example.relation 500000) s) with
    | Next (Remote t') =>
        approx_len t' = approx_len (Example.relation 500000)
        ∧ rows t' = rows (Example.relation 500000)
        ∧ (guess_values (self s) = false → t' = Example.relation 500000)
    | _ => False
    end.
Proof.
  split; [reflexivity|].
  exact (remote_when_download_is_off
           (Example.env (λ _, None) 500000 (Some SampleButton)
              (Some NoButton) No)
           (Example.start (Sample.widget Example.PostgreSQL 3 false true))
           (Example.relation 500000) eq_refl).
Defined.

(** The first entry selected. *)
Lemma nothing_selected_no_data_witness :
  let s := Example.start (Sample.widget Example.PostgreSQL 0 true true) in
  let s' := snd (get_table Example.quiet s) in
  currentIndex (self s) = 0
  ∧ fst (get_table Example.quiet s) = Return None
  ∧ events_since s s' = []
  ∧ data_desc_table (base (self s')) = None
  ∧ Error_connection (base (self s')) = Error_connection (base (self s))
  ∧ sql (self s') = sql (self s)
  ∧ table (self s') = table (self s)
  ∧ guess_values (self s') = guess_values (self s).
Proof.
  split; [reflexivity|].
  exact (nothing_selected_no_data Example.quiet
           (Example.start (Sample.widget Example.PostgreSQL 0 true true))
           ltac:(simpl; lia)).
Defined.

(** The table iris on a server that refuses the connection. *)
Lemma no_data_when_relation_fails_to_open_witness :
  let s := Example.start (Sample.widget Example.PostgreSQL 3 true true) in
  let s' := snd (get_table Sample.unreachable s) in
  SqlTable Sample.unreachable "iris" = inl "connection refused"
  ∧ match fst (get_table Sample.unreachable s) with
    | Next _ => False
    | _ => True
    end
  ∧ forallb is_query (events_since s s') = true
  ∧ (∀ what, fst (resolve_source Sample.unreachable s) = Next what →
       fst (get_table Sample.unreachable s) = Return None
       ∧ Error_connection (base (self s')) = Some "connection refused"
       ∧ last (trace s') = Some (OpenSqlTable what)).
Proof.
  split; [reflexivity|].
  exact (no_data_when_relation_fails_to_open Sample.unreachable
           (Example.start (Sample.widget Example.PostgreSQL 3 true true))
           "connection refused" (λ _, eq_refl)).
Defined.

(** The table iris, and the query ORDERS with the editor at SELECT 1. *)
Lemma relation_opened_on_selection_witness :
  let s := Example.start (Sample.widget Example.PostgreSQL 2 false false) in
  tables (self s) !! Z.to_nat (currentIndex (self s)) = Some "ORDERS"
  ∧ fst (resolve_source Example.quiet s) = Next "SELECT 1"
  ∧ table (self (snd (resolve_source Example.quiet s))) = Some "ORDERS"
  ∧ ∃ rest,
      events_since s (snd (get_table Example.quiet s))
      = OpenSqlTable "SELECT 1" :: rest.
Proof.
  split; [reflexivity|].
  exact (relation_opened_on_selection Example.quiet
           (Example.start (Sample.widget Example.PostgreSQL 2 false false))
           "ORDERS" [("Host", "localhost")]
           ltac:(simpl; lia) eq_refl eq_refl eq_refl).
Defined.

(** A connection to PostgreSQL with download off. *)
Lemma complete_PostgreSQL_keeps_download_option_witness :
  let s := Example.start (Sample.widget Example.PostgreSQL 3 false true) in
  let s' := snd (on_connection_success Example.quiet s) in
  is_postgres (Some Example.PostgreSQL) = true
  ∧ download (self s') = download (self s)
  ∧ downloadcb_enabled (self s') = downloadcb_enabled (self s).
Proof.
  split; [reflexivity|].
  exact (complete_PostgreSQL_keeps_download_option Example.quiet
           (Example.start (Sample.widget Example.PostgreSQL 3 false true))
           Example.PostgreSQL eq_refl eq_refl eq_refl).
Defined.

(** The query ORDERS chosen, then run. *)
Lemma chosen_file_query_is_what_runs_witness :
  let s := Example.start (Sample.widget Example.PostgreSQL 2 false false) in
  let s1 := snd (select_table Example.quiet s) in
  Dict.get "ORDERS" (file_queries (self s)) = Some "SELECT id FROM orders;"
  ∧ events_since s s1 = []
  ∧ sqltext (self s1) = "SELECT id FROM orders;"
  ∧ table (self s1) = None
  ∧ data_desc_table (base (self s1)) = None
  ∧ ∃ rest,
      events_since s1 (snd (get_table Example.quiet s1))
      = OpenSqlTable "SELECT id FROM orders;" :: rest.
Proof.
  split; [reflexivity|].
  exact (chosen_file_query_is_what_runs Example.quiet
           (Example.start (Sample.widget Example.PostgreSQL 2 false false))
           "ORDERS" "SELECT id FROM orders;" [("Host", "localhost")]
           ltac:(simpl; lia) eq_refl eq_refl eq_refl).
Defined.

(** A file that is not there. *)
Lemma failed_load_changes_nothing_witness :
  let s := Example.start (Sample.widget Example.PostgreSQL 0 false false) in
  let r := _load_tables_from_file Example.quiet (λ _, None) Sample.files s in
  fst r = (Next tt, s) ∧ snd r = MkFileControls "queries.sql" false true.
Proof.
  exact (failed_load_changes_nothing Example.quiet (λ _, None) Sample.files
           (Example.start (Sample.widget Example.PostgreSQL 0 false false))
           (or_intror eq_refl)).
Defined.

(** The file of the query A, loaded beside the query ORDERS. *)
Lemma loaded_queries_are_listed_witness :
  let s := Example.start (Sample.widget Example.PostgreSQL 0 false false) in
  let r :=
    _load_tables_from_file Example.quiet
      (Example.file_system Example.terminated) Sample.files s in
  let s' := snd (fst r) in
  Parser.parse Example.terminated = [("A", "SELECT 1;" +:+ Py.NL)]
  ∧ snd r = MkFileControls "queries.sql" false false
  ∧ (∀ k v, Dict.get k (Parser.parse Example.terminated) = Some v →
       Dict.get k (file_queries (self s')) = Some v ∧ k ∈ tables (self s'))
  ∧ (∀ k, Dict.get k (Parser.parse Example.terminated) = None →
       Dict.get k (file_queries (self s'))
       = Dict.get k (file_queries (self s)))
  ∧ events_since s s' = [ListTables]
  ∧ fst (fst r) = Next tt
  ∧ ∀ name, name ∈ ["iris"] → name ∈ tables (self s').
Proof.
  split; [reflexivity|].
  exact (loaded_queries_are_listed Example.quiet
           (Example.file_system Example.terminated) Sample.files
           (Example.start (Sample.widget Example.PostgreSQL 0 false false))
           Example.terminated Example.PostgreSQL
           ltac:(discriminate) eq_refl eq_refl).
Defined.
